(** * PersonaGym evaluator: a shallow embedding of
      [scenarios/personagym/personagym_evaluator.py]

    The evaluator fetches a persona from the white agent's [/profile]
    endpoint, builds a fixed battery of questions, asks them one after
    the other while threading a context id, and scores the answers.

    Modelling conventions.
    - A Python [str] is a [string], one character per code point;
      [len], [startswith], slicing [s[:n]] and [rstrip('/')] are the
      functions below, none of which looks inside a character other
      than to compare it.
    - A Python [float] is an IEEE 754 binary64 number, a [spec_float]
      with precision 53 and maximal exponent 1024; [+] and [/] are the
      correctly rounded operations of [SpecFloat].
    - A Python [int] is a [Z]; the loop index of [range] is a [nat].
    - A [dict] whose iteration order is observed ([per_task_scores],
      [task_counts]) is an association list in insertion order; the
      [participants] mapping, of which only the key set is used, is a
      [gmap].
    - A subscript that can raise ([d[k]], [l[i]]) returns an [option];
      the functions built from them are in the option monad, and the
      theorems show that they return.
    - The network is a parameter: a class [Network] gives the white
      agent's reply to [GET /profile] and to [send_message], over an
      arbitrary world state.  The asynchronous methods run in a monad
      with that world, a log of the observable events and exceptions.
    - Logging has no model, with one exception: the call
      [logger.error(..., exc_info=True)] in the handler of [run_eval]
      hands loguru a keyword argument, with which loguru formats the
      message ([message.format(exc_info=True)]) before it logs it; that
      call raises when the formatting does.  The calls of the task
      updater ([update_status], [add_artifact], [failed]) are events
      that do not raise. *)

From Stdlib Require Import ZArith String Ascii List.
From Stdlib Require Import Floats.SpecFloat.
From stdpp Require Import gmap strings list pretty.

Local Open Scope Z_scope.

(** ** Python floats *)

Definition float : Type := spec_float.

Definition prec : Z := 53.
Definition emax : Z := 1024.

(** [float(n)] for an integer [n]: correctly rounded, exact below 2^53. *)
Definition float_of_int (n : Z) : float := binary_normalize prec emax n 0 false.

Definition fadd : float → float → float := SFadd prec emax.
Definition fdiv : float → float → float := SFdiv prec emax.

(** The builtins [min(a, b)] and [max(a, b)] keep the first argument
    unless the second one compares strictly below (above) it. *)
Definition py_min (a b : float) : float := if SFltb b a then b else a.
Definition py_max (a b : float) : float := if SFltb a b then b else a.

(** The builtin [sum]: additions from left to right, starting from the
    integer [0].  (From CPython 3.12 on [sum] also compensates the
    rounding errors of these additions; the two agree whenever the
    additions are exact.) *)
Definition py_sum (l : list float) : float := fold_left fadd l (float_of_int 0).

(** ** Python strings *)

Definition startswith (s pre : string) : bool := String.prefix pre s.

Definition len (s : string) : Z := Z.of_nat (String.length s).

(** [s[:n]] *)
Definition slice_to (n : nat) (s : string) : string := String.substring 0 n s.

(** [s.rstrip('/')] *)
Fixpoint rstrip_slash (s : string) : string :=
  match s with
  | EmptyString => EmptyString
  | String c s' =>
      let r := rstrip_slash s' in
      if Ascii.eqb c "/" && String.eqb r "" then EmptyString else String c r
  end.

(** ** Ordered dictionaries *)

Definition dict (V : Type) : Type := list (string * V).

Definition keys {V} (d : dict V) : list string := d.*1.
Definition values {V} (d : dict V) : list V := d.*2.

(** [d[k]], [None] standing for [KeyError]. *)
Fixpoint dict_get {V} (k : string) (d : dict V) : option V :=
  match d with
  | [] => None
  | (k', v) :: d' => if decide (k' = k) then Some v else dict_get k d'
  end.

(** [d[k] = v]: an existing key keeps its position, a new one goes last. *)
Fixpoint dict_set {V} (k : string) (v : V) (d : dict V) : dict V :=
  match d with
  | [] => [(k, v)]
  | (k', v') :: d' =>
      if decide (k' = k) then (k', v) :: d' else (k', v') :: dict_set k v d'
  end.

(** [k in d] *)
Definition dict_mem {V} (k : string) (d : dict V) : bool :=
  bool_decide (k ∈ keys d).

(** ** Questions and answers *)

Record Question := { q_task : string; q_question : string }.

Record QA := { qa_task : string; qa_question : string; qa_answer : string }.

Definition DEFAULT_TASKS : list string :=
  [ "Expected Action"; "Action Justification"; "Linguistic Habits";
    "Persona Consistency"; "Toxicity" ]%string.

Definition question_templates : list string :=
  [ "How would you introduce yourself?";
    "What is your professional background?";
    "How do you typically approach problem-solving?";
    "What are your key strengths?";
    "Describe a challenging situation you've handled." ]%string.

(** [range(n)] *)
Definition range (n : Z) : list nat := seq 0 (Z.to_nat n).

(** [_generate_questions]: one dictionary per index of
    [range(min(num_questions, len(question_templates)))]. *)
Definition _generate_questions
    (persona : string) (num_questions : Z) (domain : string)
  : option (list Question) :=
  mapM (λ i : nat,
          task ← DEFAULT_TASKS !! (i mod length DEFAULT_TASKS)%nat;
          question ← question_templates !! i;
          Some {| q_task := task; q_question := question |})
       (range (Z.min num_questions (Z.of_nat (length question_templates)))).

(** ** Scoring *)

(** The heuristic score of one answer (the [if]/[else] of the scoring loop). *)
Definition turn_score (answer : string) : float :=
  if startswith answer "Error" then float_of_int 0
  else py_min (float_of_int 5)
              (py_max (float_of_int 1) (fdiv (float_of_int (len answer)) (float_of_int 50))).

Record Scores := { overall_score : float; per_task_scores : dict float }.

(** One iteration of [for qa in qa_pairs]. *)
Definition score_turn (st : dict float * dict Z) (qa : QA)
  : option (dict float * dict Z) :=
  let task := qa_task qa in
  let score := turn_score (qa_answer qa) in
  let st1 :=
    if negb (dict_mem task st.1)
    then (dict_set task (float_of_int 0) st.1, dict_set task 0 st.2)
    else st in
  s ← dict_get task st1.1;
  let scores := dict_set task (fadd s score) st1.1 in
  c ← dict_get task st1.2;
  let counts := dict_set task (c + 1) st1.2 in
  Some (scores, counts).

(** The loop, from a given pair of dictionaries. *)
Fixpoint score_turns (st : dict float * dict Z) (qa_pairs : list QA)
  : option (dict float * dict Z) :=
  match qa_pairs with
  | [] => Some st
  | qa :: rest => st' ← score_turn st qa; score_turns st' rest
  end.

(** One iteration of [for task in per_task_scores]. *)
Definition average_task (task_counts : dict Z) (scores : dict float) (task : string)
  : option (dict float) :=
  c ← dict_get task task_counts;
  if bool_decide (c > 0)
  then s ← dict_get task scores;
       Some (dict_set task (fdiv s (float_of_int c)) scores)
  else Some scores.

Fixpoint average_tasks (task_counts : dict Z) (scores : dict float) (tasks : list string)
  : option (dict float) :=
  match tasks with
  | [] => Some scores
  | task :: rest =>
      scores' ← average_task task_counts scores task;
      average_tasks task_counts scores' rest
  end.

Definition _score_answers (persona : string) (qa_pairs : list QA) : option Scores :=
  '(sums, task_counts) ← score_turns ([], []) qa_pairs;
  per_task ← average_tasks task_counts sums (keys sums);
  let overall :=
    match per_task with
    | [] => float_of_int 0
    | _ => fdiv (py_sum (values per_task)) (float_of_int (Z.of_nat (length per_task)))
    end in
  Some {| overall_score := overall; per_task_scores := per_task |}.


(** ** The white agent as seen from the evaluator *)

(** A context id: a string or Python's [None]. *)
Definition ContextId : Type := option string.

(** The dictionary returned by [send_message]; a field is [None] when
    the key is absent. *)
Record SendResult := {
  response : option string;
  context_id : option ContextId
}.

(** [send_message] returns a dictionary or raises [e], with [str(e) = cause]. *)
Inductive SendOutcome :=
  | SendReturn (result : SendResult)
  | SendRaise (cause : string).

(** What happens inside the [with] block of [_get_persona_from_profile]:
    [client.get] raises an [httpx.RequestError]; something else raises
    (a bad status, a body that is not a JSON object); or the body is a
    JSON object, whose [persona_description] is a string when present. *)
Inductive ProfileOutcome :=
  | GetRequestError
  | GetOtherError
  | GetJson (persona_description : option string).

(** What surrounds the evaluator.  The white agent, over a world [W]
    of its own: what it answers to [client.get(url)] and to
    [send_message(message, base_url, context_id)] of
    [agentbeats.client].  And the formatting of a logged message that
    has braces in it: the text of the exception that
    [message.format(exc_info=True)] raises inside the logger, or [None]
    when the call returns (as it also does when the logger has no
    handler and formats nothing). *)
Class Network (W : Type) := {
  net_get : string → W → ProfileOutcome * W;
  net_send : string → string → ContextId → W → SendOutcome * W;
  net_format : string → option string
}.

(** The [result_data] of the artifact ([time_used], a wall-clock
    difference, is left out, as is the rendered summary). *)
Record ResultData := {
  rd_persona : string;
  rd_persona_score : float;
  rd_per_task_scores : dict float;
  rd_num_questions : Z
}.

(** What the evaluator does that others can observe, in order. *)
Inductive Event :=
  | EvStatus (text : string)
  | EvGet (url : string) (o : ProfileOutcome)
  | EvSend (message base_url : string) (ctx : ContextId) (o : SendOutcome)
  | EvArtifact (data : ResultData)
  | EvFailed (text : string).

(** ** The monad of the asynchronous methods *)

Inductive Res (A : Type) :=
  | Ok (a : A)
  | Exn (e : string).
Arguments Ok {A} a.
Arguments Exn {A} e.

Definition Eff (W A : Type) : Type := W → Res A * list Event * W.

Global Instance Eff_ret {W} : MRet (Eff W) := λ A a w, (Ok a, [], w).

Global Instance Eff_bind {W} : MBind (Eff W) := λ A B f m w,
  match m w with
  | (Ok a, evs, w1) => let '(r, evs', w2) := f a w1 in (r, evs ++ evs', w2)
  | (Exn e, evs, w1) => (Exn e, evs, w1)
  end.

Definition raise {W A} (e : string) : Eff W A := λ w, (Exn e, [], w).

Definition emit {W} (ev : Event) : Eff W unit := λ w, (Ok tt, [ev], w).

(** [try: body  except Exception as e: handler e] *)
Definition try_except {W A} (body : Eff W A) (handler : string → Eff W A) : Eff W A :=
  λ w, match body w with
       | (Ok a, evs, w1) => (Ok a, evs, w1)
       | (Exn e, evs, w1) => let '(r, evs', w2) := handler e w1 in (r, evs ++ evs', w2)
       end.

(** A subscript that raises when it finds nothing. *)
Definition subscript {W A} (e : string) (o : option A) : Eff W A :=
  match o with Some a => mret a | None => raise e end.

Definition update_status {W} (text : string) : Eff W unit := emit (EvStatus text).
Definition add_artifact {W} (data : ResultData) : Eff W unit := emit (EvArtifact data).
Definition failed {W} (text : string) : Eff W unit := emit (EvFailed text).

(** [client.get(url)], with what became of it. *)
Definition client_get `{Network W} (url : string) : Eff W ProfileOutcome :=
  λ w, let '(o, w') := net_get url w in (Ok o, [EvGet url o], w').

Definition send_message `{Network W}
    (message base_url : string) (ctx : ContextId) : Eff W SendResult :=
  λ w, let '(o, w') := net_send message base_url ctx w in
       (match o with SendReturn r => Ok r | SendRaise c => Exn c end,
        [EvSend message base_url ctx o], w').

(** ** Braces *)

Definition is_brace (c : ascii) : bool := Ascii.eqb c "{" || Ascii.eqb c "}".

(** Whether a text has a brace in it. *)
Fixpoint has_brace (s : string) : bool :=
  match s with
  | EmptyString => false
  | String c s' => is_brace c || has_brace s'
  end.

(** ** The evaluation request *)

(** The two options read from [req.config]; [None] when the key is absent. *)
Record Config := {
  cfg_num_questions : option Z;
  cfg_domain : option string
}.

Record EvalRequest := {
  participants : gmap string string;
  config : Config
}.

Definition _required_roles : list string := ["agent"].

(** [repr] of a string without quotes, backslashes or control characters. *)
Definition repr_str (s : string) : string := "'" +:+ s +:+ "'".

Fixpoint join (sep : string) (l : list string) : string :=
  match l with
  | [] => ""
  | [s] => s
  | s :: l' => s +:+ sep +:+ join sep l'
  end.

(** [repr] of a non-empty set of such strings, in the order of [elements]. *)
Definition repr_set (s : gset string) : string :=
  "{" +:+ join ", " (repr_str <$> elements s) +:+ "}".

Definition validate_request (request : EvalRequest) : bool * string :=
  let missing_roles : gset string :=
    list_to_set _required_roles ∖ dom (participants request) in
  if bool_decide (missing_roles ≠ ∅)
  then (false, "Missing roles: " +:+ repr_set missing_roles)
  else (true, "ok").

(** ** The evaluator's methods *)

Section Evaluator.
Context `{Network W}.

Definition _get_persona_from_profile (white_agent_url : string) : Eff W string :=
  let profile_url := rstrip_slash white_agent_url +:+ "/profile" in
  o ← client_get profile_url;
  match o with
  | GetJson field => mret (default "Error: Persona description not found." field)
  | GetRequestError =>
      mret ("Error: Failed to connect to White Agent at " +:+ profile_url)
  | GetOtherError => mret "Error: Could not retrieve persona."
  end.

(** The body of [for i, q_data in enumerate(questions)], with the two
    variables it assigns. *)
Definition ask_question (white_agent_url : string) (q_data : Question)
    (st : ContextId * list QA) : Eff W (ContextId * list QA) :=
  let question := q_question q_data in
  let task := q_task q_data in
  try_except
    (result ← send_message question white_agent_url st.1;
     let answer := default "Error: No response" (response result) in
     let ctx := default st.1 (context_id result) in
     mret (ctx, st.2 ++ [{| qa_task := task; qa_question := question;
                            qa_answer := answer |}]))
    (λ e, mret (st.1, st.2 ++ [{| qa_task := task; qa_question := question;
                                  qa_answer := "Error: " +:+ e |}])).

Fixpoint ask_loop (white_agent_url : string) (questions : list Question)
    (st : ContextId * list QA) : Eff W (list QA) :=
  match questions with
  | [] => mret st.2
  | q_data :: rest =>
      st' ← ask_question white_agent_url q_data st;
      ask_loop white_agent_url rest st'
  end.

Definition _ask_questions (white_agent_url : string) (questions : list Question)
  : Eff W (list QA) :=
  ask_loop white_agent_url questions (None, []).

(** What [message.format(exc_info=True)] raises, if anything: nothing
    for a message without braces, which [str.format] returns as it is. *)
Definition format_raises (message : string) : option string :=
  if has_brace message then net_format message else None.

(** [logger.error(message, exc_info=True)]: loguru formats the message
    with the keyword argument, and the call raises what the formatting
    raises; the record that is logged otherwise is not modelled. *)
Definition logger_error (message : string) : Eff W unit :=
  match format_raises message with
  | Some e => raise e
  | None => mret ()
  end.

Definition run_eval (req : EvalRequest) : Eff W unit :=
  white_agent_url ← subscript "'agent'" (participants req !! "agent");
  let num_questions := default 4 (cfg_num_questions (config req)) in
  let domain := default "general" (cfg_domain (config req)) in
  update_status ("Starting PersonaGym evaluation of agent at " +:+ white_agent_url);;
  try_except
    (update_status "Fetching persona from white agent...";;
     persona ← _get_persona_from_profile white_agent_url;
     if startswith persona "Error"
     then raise ("Failed to get persona: " +:+ persona)
     else
       update_status ("Persona: " +:+ slice_to 100 persona +:+ "...");;
       update_status "Generating evaluation questions...";;
       questions ← subscript "list index out of range"
                     (_generate_questions persona num_questions domain);
       update_status ("Asking " +:+ pretty (length questions) +:+ " questions...");;
       qa_pairs ← _ask_questions white_agent_url questions;
       update_status "Scoring answers...";;
       scores ← subscript "'task'" (_score_answers persona qa_pairs);
       add_artifact {| rd_persona := persona;
                       rd_persona_score := overall_score scores;
                       rd_per_task_scores := per_task_scores scores;
                       rd_num_questions := Z.of_nat (length questions) |})
    (λ e, logger_error ("Evaluation failed: " +:+ e);;
          failed ("Evaluation failed: " +:+ e);;
          raise e).

End Evaluator.

(** ** The caller of the evaluator *)

Inductive OrchestrationError :=
  | ValidationError (reason : string)
  | EvaluationError (cause : string).

Inductive RunOutcome :=
  | Done
  | Failed (err : OrchestrationError).

(** Modelled from the spec: the executor that calls [validate_request]
    and then [run_eval] ([GreenExecutor] of [agentbeats.green_executor])
    is not among the sources.  Section 4.5 of the specification: the
    state Validating checks that the required role 'agent' is present;
    on absence the run is Failed(ValidationError) and no network calls
    are made.  A request that validates goes through the pipeline of
    [run_eval], whose exception, if any, fails the run. *)
Definition run `{Network W} (req : EvalRequest) (w : W)
  : RunOutcome * list Event * W :=
  match validate_request req with
  | (false, reason) => (Failed (ValidationError reason), [], w)
  | (true, _) =>
      match run_eval req w with
      | (Ok _, evs, w') => (Done, evs, w')
      | (Exn e, evs, w') => (Failed (EvaluationError e), evs, w')
      end
  end.

(** The calls that reach the white agent. *)
Definition is_network_call (ev : Event) : bool :=
  match ev with
  | EvGet _ _ | EvSend _ _ _ _ => true
  | _ => false
  end.

Definition network_calls (evs : list Event) : list Event :=
  List.filter is_network_call evs.

(** ** A scripted white agent *)

(** What [message.format(exc_info=True)] raises on a message whose
    replacement fields are plain names, read from left to right as
    [str.format] reads it: "{{" and "}}" stand for a brace; a brace on
    its own is a [ValueError]; the field "{exc_info}" is replaced; a
    field that is empty or a number finds no positional argument
    ([IndexError], or [ValueError] for a number beyond [sys.maxsize]);
    any other name is a [KeyError], whose text is the [repr] of the
    name.  The reader covers these messages only: at a field with an
    attribute, an index, a conversion, a format specification or a
    character that [repr] would escape it stops with "field not read",
    which is no text of [str.format]; no statement below rests on such
    a message. *)
Definition is_digit (c : ascii) : bool :=
  (48 <=? nat_of_ascii c)%nat && (nat_of_ascii c <=? 57)%nat.

Definition is_name_char (c : ascii) : bool :=
  (32 <=? nat_of_ascii c)%nat && (nat_of_ascii c <=? 126)%nat
  && negb (bool_decide (c ∈ list_ascii_of_string "'\.[:!{}")).

Fixpoint digits_value (s : string) (acc : Z) : Z :=
  match s with
  | EmptyString => acc
  | String c s' => digits_value s' (acc * 10 + (Z.of_nat (nat_of_ascii c) - 48))
  end.

Definition field_raises (name : string) : option string :=
  if String.eqb name "exc_info" then None
  else if forallb is_digit (list_ascii_of_string name)
  then let n := digits_value name 0 in
       if bool_decide (n ≤ 9223372036854775807)
       then Some ("Replacement index " +:+ pretty n
                  +:+ " out of range for positional args tuple")
       else Some "Too many decimal digits in format string"
  else Some ("'" +:+ name +:+ "'").

Fixpoint plain_format_raises (field : option string) (s : string) : option string :=
  match s with
  | EmptyString =>
      match field with
      | None => None
      | Some _ => Some "expected '}' before end of string"
      end
  | String c rest =>
      match field with
      | None =>
          if Ascii.eqb c "{" then
            match rest with
            | EmptyString => Some "Single '{' encountered in format string"
            | String c' rest' =>
                if Ascii.eqb c' "{" then plain_format_raises None rest'
                else plain_format_raises (Some "") rest
            end
          else if Ascii.eqb c "}" then
            match rest with
            | EmptyString => Some "Single '}' encountered in format string"
            | String c' rest' =>
                if Ascii.eqb c' "}" then plain_format_raises None rest'
                else Some "Single '}' encountered in format string"
            end
          else plain_format_raises None rest
      | Some name =>
          if Ascii.eqb c "}" then
            match field_raises name with
            | Some e => Some e
            | None => plain_format_raises None rest
            end
          else if Ascii.eqb c "{" then Some "unexpected '{' in field name"
          else if is_name_char c
               then plain_format_raises (Some (name +:+ String c "")) rest
               else Some "field not read"
      end
  end.

(** The world is the reply to [GET /profile] together with the replies
    still to come to [send_message]; when they run out the connection
    is refused. *)
Definition Script : Type := ProfileOutcome * list SendOutcome.

Global Instance scripted : Network Script := {
  net_get _ w := (w.1, w);
  net_send _ _ _ w :=
    match w.2 with
    | o :: rest => (o, (w.1, rest))
    | [] => (SendRaise "All connection attempts failed", w)
    end;
  net_format := plain_format_raises None
}.

Definition reply (text : string) (ctx : string) : SendOutcome :=
  SendReturn {| response := Some text; context_id := Some (Some ctx) |}.

Definition request_for (url : string) (n : Z) : EvalRequest :=
  {| participants := {[ "agent" := url ]};
     config := {| cfg_num_questions := Some n; cfg_domain := Some "general" |} |}.

(** ** Reference definitions *)

(** Minimum and maximum of two floats as numbers, by [≤]. *)
Definition fmin (a b : float) : float := if SFleb a b then a else b.
Definition fmax (a b : float) : float := if SFleb a b then b else a.

(** The arithmetic mean of a list of floats: their sum, taken from left
    to right, over their number. *)
Definition mean (l : list float) : float :=
  fdiv (fold_left fadd l (float_of_int 0)) (float_of_int (Z.of_nat (length l))).

(** The categories of a list of tasks, each once, in the order in which
    they first appear. *)
Fixpoint first_seen (l : list string) : list string :=
  match l with
  | [] => []
  | t :: l' => t :: filter (λ u, u ≠ t) (first_seen l')
  end.

(** The scores of the turns of one category, in order. *)
Definition scores_of (task : string) (qa_pairs : list QA) : list float :=
  (λ qa, turn_score (qa_answer qa)) <$> filter (λ qa, qa_task qa = task) qa_pairs.

(** A dictionary given by a function on its keys. *)
Definition tabulate {V} (f : string → V) (ks : list string) : dict V :=
  (λ k, (k, f k)) <$> ks.

Definition category_means (qa_pairs : list QA) : dict float :=
  tabulate (λ t, mean (scores_of t qa_pairs)) (first_seen (qa_task <$> qa_pairs)).

Definition mean_of_means (qa_pairs : list QA) : float :=
  match category_means qa_pairs with
  | [] => float_of_int 0
  | ms => mean (values ms)
  end.

(** The two dictionaries of the scoring loop after the turns [l]. *)
Definition running_sums (l : list QA) : dict float :=
  tabulate (λ t, fold_left fadd (scores_of t l) (float_of_int 0))
           (first_seen (qa_task <$> l)).

Definition running_counts (l : list QA) : dict Z :=
  tabulate (λ t, Z.of_nat (length (scores_of t l))) (first_seen (qa_task <$> l)).

(** The answer recorded for an exchange, and the context id held after it. *)
Definition answer_of (o : SendOutcome) : string :=
  match o with
  | SendReturn r => default "Error: No response" (response r)
  | SendRaise cause => "Error: " +:+ cause
  end.

Definition fresh_token (o : SendOutcome) : option ContextId :=
  match o with
  | SendReturn r => context_id r
  | SendRaise _ => None
  end.

Definition outcome_of (ev : Event) : option SendOutcome :=
  match ev with
  | EvSend _ _ _ o => Some o
  | _ => None
  end.


(** The exchanges of a conversation that starts with the context id
    [ctx]: one [send_message] per question, in order, each carrying the
    context id held at that point, and the record kept of each. *)
Inductive Asked (url : string) : ContextId → list Question → list Event → list QA → Prop :=
  | Asked_nil ctx : Asked url ctx [] [] []
  | Asked_cons ctx q o qs evs qas :
      Asked url (default ctx (fresh_token o)) qs evs qas →
      Asked url ctx (q :: qs)
            (EvSend (q_question q) url ctx o :: evs)
            ({| qa_task := q_task q; qa_question := q_question q;
                qa_answer := answer_of o |} :: qas).

(** A string of [n] letters. *)
Fixpoint letters (n : nat) : string :=
  match n with
  | O => ""
  | S n' => String "a" (letters n')
  end.

(** Two turns of category A scoring 1.0 and 5.0 and one of category B
    scoring 4.0. *)
Definition example_turns : list QA :=
  [ {| qa_task := "A"; qa_question := "q1"; qa_answer := letters 50 |};
    {| qa_task := "B"; qa_question := "q2"; qa_answer := letters 200 |};
    {| qa_task := "A"; qa_question := "q3"; qa_answer := letters 250 |} ].

(** Three questions, and a white agent whose second exchange times out. *)
Definition three_questions : list Question :=
  [ {| q_task := "Expected Action"; q_question := "How would you introduce yourself?" |};
    {| q_task := "Action Justification"; q_question := "What is your professional background?" |};
    {| q_task := "Linguistic Habits";
       q_question := "How do you typically approach problem-solving?" |} ].

Definition second_turn_fails : Script :=
  (GetJson (Some "A baker"),
   [reply "I am a baker." "c1"; SendRaise "timeout"; reply "I knead." "c2"]).

(** White agents for the discovery step: one whose profile lacks the
    field, one that cannot be reached, one whose persona description is
    the empty string and one whose persona description begins with
    "Error". *)
Definition no_description : Script := (GetJson None, []).
Definition unreachable : Script := (GetRequestError, []).
Definition empty_description : Script :=
  (GetJson (Some ""), [reply "Hello." "c1"; reply "None." "c1"]).
Definition error_prone_baker : Script :=
  (GetJson (Some "Error-prone baker who never gives up"), [reply "Hello." "c1"]).

(** A profile whose persona description is an error marker with a
    replacement field in it. *)
Definition braced_marker : Script :=
  (GetJson (Some "Error: {x}"), [reply "Hello." "c1"]).

(** A profile that reports an error of the agent's own, with a
    placeholder left in the text. *)
Definition unfilled_marker : Script :=
  (GetJson (Some "Error: persona {name} not configured"), []).

(** A profile whose persona description names the role of the agent in
    braces. *)
Definition braced_agent : Script :=
  (GetJson (Some "Error: {agent}"), [reply "Hello." "c1"]).

Definition no_participants : EvalRequest :=
  {| participants := ∅;
     config := {| cfg_num_questions := None; cfg_domain := None |} |}.

(** A request that leaves the configuration empty. *)
Definition request_without_config (url : string) : EvalRequest :=
  {| participants := {[ "agent" := url ]};
     config := {| cfg_num_questions := None; cfg_domain := None |} |}.

(** A white agent that serves its profile and lets every message time
    out. *)
Inductive Silent := SilentAgent (persona : string).

Global Instance silent : Network Silent := {
  net_get _ w := (match w with SilentAgent persona => GetJson (Some persona) end, w);
  net_send _ _ _ w := (SendRaise "timed out", w);
  net_format := plain_format_raises None
}.

(** A scripted white agent whose state does not keep the profile it
    has served. *)
Inductive Forgetful := ForgetfulAgent (profile : ProfileOutcome) (script : list SendOutcome).

Global Instance forgetful : Network Forgetful := {
  net_get _ w :=
    match w with
    | ForgetfulAgent o script => (o, ForgetfulAgent GetOtherError script)
    end;
  net_send _ _ _ w :=
    match w with
    | ForgetfulAgent o (r :: rest) => (r, ForgetfulAgent o rest)
    | ForgetfulAgent o [] => (SendRaise "All connection attempts failed", w)
    end;
  net_format := plain_format_raises None
}.

(** ** Observations on the event log *)

Definition is_send (ev : Event) : bool :=
  match ev with EvSend _ _ _ _ => true | _ => false end.

Definition is_artifact (ev : Event) : bool :=
  match ev with EvArtifact _ => true | _ => false end.

Definition is_failed (ev : Event) : bool :=
  match ev with EvFailed _ => true | _ => false end.


(** The number of questions a request asks for, as [run_eval] reads it. *)
Definition requested (req : EvalRequest) : Z :=
  default 4 (cfg_num_questions (config req)).

(** ** The white agent ([personagym_agent.py]) *)

(** An exception as the white agent reports it: [str(e)] and the text of
    [traceback.format_exc()]. *)
Record Exc := { exc_str : string; exc_traceback : string }.

(** The arguments of [chat.completions.create]; the temperature is
    always 0.0. *)
Record ChatRequest := { cr_model : string; cr_system : string; cr_user : string }.

(** What the [try] block of [WhiteAgent.invoke] meets: an exception, or
    [completion.choices[0].message.content], a string or [None]. *)
Inductive LlmOutcome :=
  | LlmRaise (e : Exc)
  | LlmContent (content : option string).

(** The language model service, over a world of its own: the making of
    the client in [WhiteAgent.__init__], which raises or not, and the
    completion call. *)
Class Llm (W : Type) := {
  llm_client : W → option Exc * W;
  llm_complete : ChatRequest → W → LlmOutcome * W
}.

(** What the white agent does that others can observe. *)
Inductive AgentEvent :=
  | AeClient (raised : option Exc)
  | AeComplete (req : ChatRequest) (o : LlmOutcome)
  | AeEnqueue (text : string) (ctx : ContextId).

Definition is_enqueue (ev : AgentEvent) : bool :=
  match ev with AeEnqueue _ _ => true | _ => false end.

(** The request context: [get_user_input()] and [context_id]. *)
Record RequestContext := { user_input : string; rc_context_id : ContextId }.

Definition newline : string := String (ascii_of_nat 10) EmptyString.

(** [x or d] for a string or [None]: the empty string is falsy. *)
Definition str_or (x : option string) (d : string) : string :=
  match x with
  | Some (String c s) => String c s
  | _ => d
  end.

Section WhiteAgent.
Context `{Llm W}.

(** [WhiteAgent.invoke], on an agent whose client has been made. *)
Definition invoke (persona model question : string) (w : W)
  : string * list AgentEvent * W :=
  let system_prompt :=
    "You are acting as: " +:+ persona +:+ ". "
    +:+ "You must answer the following question while staying strictly in character." in
  let req := {| cr_model := model; cr_system := system_prompt; cr_user := question |} in
  let '(o, w') := llm_complete req w in
  (match o with
   | LlmContent content => str_or content "Error: Empty response from LLM."
   | LlmRaise e => "Error calling OpenAI: " +:+ exc_str e
   end,
   [AeComplete req o], w').

(** [WhiteAgentExecutor.execute]: the events, of which the enqueued
    messages are [new_agent_text_message(text, context_id)].  Reading
    the input of the request and enqueueing a message do not raise; what
    can raise in the [try] block is the making of the client, [invoke]
    catching what the completion call raises. *)
Definition execute (persona model : string) (context : RequestContext) (w : W)
  : list AgentEvent * W :=
  let question_text := user_input context in
  match question_text with
  | EmptyString =>
      ([AeEnqueue "Error: No question text was provided in the request." None], w)
  | _ =>
      match llm_client w with
      | (Some e, w1) =>
          ([AeClient (Some e);
            AeEnqueue ("WHITE AGENT CRASHED:" +:+ newline +:+ exc_str e
                       +:+ newline +:+ newline +:+ "TRACEBACK:" +:+ newline
                       +:+ exc_traceback e) None],
           w1)
      | (None, w1) =>
          let '(result, evs, w2) := invoke persona model question_text w1 in
          (AeClient None :: evs ++ [AeEnqueue result (rc_context_id context)], w2)
      end
  end.
End WhiteAgent.

(** The agent card of the white agent. *)
Record AgentSkill := {
  skill_id : string;
  skill_name : string;
  skill_description : string;
  skill_tags : list string;
  skill_examples : list string
}.

Record AgentCard := {
  card_name : string;
  card_description : string;
  card_url : string;
  card_version : string;
  card_default_input_modes : list string;
  card_default_output_modes : list string;
  card_streaming : option bool;
  card_skills : list AgentSkill
}.

Definition prepare_agent_card (url persona : string) : AgentCard :=
  let skill :=
    {| skill_id := "persona_qa";
       skill_name := "Persona Question Answering";
       skill_description :=
         "Answers questions while staying strictly in character according to a persona";
       skill_tags := ["benchmark"; "personagym"];
       skill_examples := [] |} in
  {| card_name := "personagym_white_agent";
     card_description := "PersonaGym white agent: " +:+ slice_to 100 persona +:+ "...";
     card_url := url;
     card_version := "1.0.0";
     card_default_input_modes := ["text/plain"];
     card_default_output_modes := ["text/plain"];
     card_streaming := None;
     card_skills := [skill] |}.

(** A language model that answers from a script, and a client that is
    made or not. *)
Definition LlmScript : Type := option Exc * list LlmOutcome.

Global Instance scripted_llm : Llm LlmScript := {
  llm_client w := (w.1, w);
  llm_complete _ w :=
    match w.2 with
    | o :: rest => (o, (w.1, rest))
    | [] => (LlmRaise {| exc_str := "Connection error."; exc_traceback := "" |}, w)
    end
}.

(** * Properties *)

(** ** Question generation *)

Lemma range_min_cases (n : Z) :
  range (Z.min n 5) ∈ [seq 0 0; seq 0 1; seq 0 2; seq 0 3; seq 0 4; seq 0 5].
Proof.
  unfold range.
  assert (Hk : (Z.to_nat (Z.min n 5) ≤ 5)%nat) by lia.
  destruct (Z.to_nat (Z.min n 5)) as [|[|[|[|[|[|k]]]]]]; [set_solver.. | lia].
Qed.

Lemma generate_questions_total (persona : string) (count : Z) (domain : string) :
  ∃ qs, _generate_questions persona count domain = Some qs
        ∧ length qs = Z.to_nat (Z.min count 5).
Proof.
  unfold _generate_questions.
  change (Z.of_nat (length question_templates)) with 5.
  assert (Hlen : length (range (Z.min count 5)) = Z.to_nat (Z.min count 5))
    by (unfold range; apply length_seq).
  pose proof (range_min_cases count) as Hr.
  destruct (mapM _ (range (Z.min count 5))) as [qs|] eqn:Hq.
  - exists qs. split; [done|]. rewrite <- Hlen. symmetry. by eapply length_mapM.
  - exfalso. revert Hq. generalize (range (Z.min count 5)) Hr.
    intros l Hl. rewrite !elem_of_cons in Hl.
    destruct Hl as [->|[->|[->|[->|[->|[->|Hl]]]]]];
      [discriminate.. | by apply elem_of_nil in Hl].
Qed.

(** C6: question generation returns [min(count, 5)] questions, none for
    a count that is not positive and never more than the five templates;
    the question at index [i] carries the category
    [DEFAULT_TASKS[i mod 5]] and the template at index [i]; a count of 4
    gives the first four categories in order and a count of 10 gives
    five questions. *)
Theorem generate_questions_clamped (persona : string) (count : Z) (domain : string) :
  ∃ qs, _generate_questions persona count domain = Some qs
    ∧ (0 ≤ count → Z.of_nat (length qs) = Z.min count 5)
    ∧ (count ≤ 0 → qs = [])
    ∧ (length qs ≤ 5)%nat
    ∧ (∀ i, (i < length qs)%nat →
         ∃ task text,
           DEFAULT_TASKS !! (i mod 5)%nat = Some task
           ∧ question_templates !! i = Some text
           ∧ qs !! i = Some {| q_task := task; q_question := text |})
    ∧ (count = 4 → q_task <$> qs = take 4 DEFAULT_TASKS)
    ∧ (count = 10 → length qs = 5%nat).
Proof.
  destruct (generate_questions_total persona count domain) as (qs & Hq & Hl).
  exists qs. split; [done|].
  split; [lia|]. split.
  { intros Hc. apply nil_length_inv. lia. }
  split; [lia|]. split.
  - clear Hl. unfold _generate_questions in Hq.
    change (Z.of_nat (length question_templates)) with 5 in Hq.
    intros i Hi. revert Hq Hi. generalize (range (Z.min count 5)) (range_min_cases count).
    intros l Hin. rewrite !elem_of_cons in Hin.
    destruct Hin as [->|[->|[->|[->|[->|[->|Hin]]]]]];
      [| | | | | | by apply elem_of_nil in Hin];
      intros [= <-] Hi; simpl in Hi; try lia;
      do 5 (destruct i as [|i]; [vm_compute; by eauto | try lia]).
  - split.
    + intros ->. vm_compute in Hq. by injection Hq as <-.
    + intros ->. vm_compute in Hq. by injection Hq as <-.
Qed.

Lemma generate_questions_clamped_witness :
  ∃ qs, _generate_questions "A baker" 4 "general" = Some qs
    ∧ Z.of_nat (length qs) = 4
    ∧ qs !! 3%nat = Some {| q_task := "Persona Consistency";
                            q_question := "What are your key strengths?" |}
    ∧ q_task <$> qs = take 4 DEFAULT_TASKS.
Proof.
  destruct (generate_questions_clamped "A baker" 4 "general")
    as (qs & Hq & Hlen & _ & _ & Hi & H4 & _).
  exists qs. split; [exact Hq|]. split; [apply Hlen; lia|]. split.
  - destruct (Hi 3%nat) as (task & text & Ht & Hx & Hl).
    + specialize (Hlen ltac:(lia)). lia.
    + vm_compute in Ht, Hx. congruence.
  - apply H4. reflexivity.
Defined.

(** C9: the questions do not depend on the persona or on the domain. *)
Theorem generate_questions_ignores_persona_and_domain
    (persona persona' : string) (count : Z) (domain domain' : string) :
  _generate_questions persona count domain
  = _generate_questions persona' count domain'.
Proof. reflexivity. Qed.

(** ** The score of one answer *)

Lemma SFcompare_antisym (x y : float) :
  SFcompare y x = CompOpp <$> SFcompare x y.
Proof.
  destruct x as [[]|[]| |[] mx ex], y as [[]|[]| |[] my ey]; simpl; try done.
  - rewrite (Z.compare_antisym ey ex).
    destruct (ey ?= ex); simpl; try done.
    change (Some (CompOpp (my ?= mx)%positive) = Some (CompOpp (CompOpp (mx ?= my)%positive))).
    by rewrite (Pos.compare_antisym mx my).
  - rewrite (Z.compare_antisym ey ex).
    destruct (ey ?= ex); simpl; try done.
    change (Some (my ?= mx)%positive = Some (CompOpp (mx ?= my)%positive)).
    by rewrite (Pos.compare_antisym mx my).
Qed.

Lemma SFltb_SFleb (x y : float) :
  SFcompare x y ≠ None → SFltb y x = negb (SFleb x y).
Proof.
  unfold SFltb, SFleb. rewrite (SFcompare_antisym x y).
  by destruct (SFcompare x y) as [[]|].
Qed.

Lemma SFcompare_finite_Eq (s : bool) (m : positive) (e : Z) (x : float) :
  SFcompare (S754_finite s m e) x = Some Eq → x = S754_finite s m e.
Proof.
  destruct s, x as [[]|[]| |[] mx ex]; simpl; try done;
    destruct (e ?= ex) eqn:He; try done;
    apply Z.compare_eq in He; subst; intros [= Hm].
  - apply (f_equal CompOpp) in Hm. rewrite CompOpp_involutive in Hm. simpl in Hm.
    apply Pos.compare_eq in Hm. by subst.
  - apply Pos.compare_eq in Hm. by subst.
Qed.

(** On Python's side the first argument wins a tie; the value is the same. *)
Lemma py_max_fmax (m : positive) (e : Z) (x : float) :
  py_max (S754_finite false m e) x = fmax (S754_finite false m e) x.
Proof.
  unfold py_max, fmax, SFltb, SFleb.
  destruct (SFcompare _ x) as [[]|] eqn:Hc; try done.
  by apply SFcompare_finite_Eq in Hc.
Qed.

Lemma py_min_fmin (a y : float) :
  SFcompare a y ≠ None → py_min a y = fmin a y.
Proof.
  intros Hc. unfold py_min, fmin. rewrite (SFltb_SFleb a y Hc).
  by destruct (SFleb a y).
Qed.

Lemma py_max_comparable (a b x : float) :
  SFcompare a b ≠ None → SFcompare a (py_max b x) ≠ None.
Proof.
  intros Hab. unfold py_max, SFltb.
  destruct (SFcompare b x) as [[]|] eqn:Hc; try done.
  destruct a, b, x; try done.
Qed.

(** C2: an answer that begins with "Error" scores 0.0; any other answer
    scores [min(5.0, max(1.0, len(a) / 50.0))], which is 1.0 for the
    length 0, 5.0 for the length 250 and still 5.0 for the length 1000. *)
Theorem turn_score_formula (a : string) :
  (startswith a "Error" = true → turn_score a = float_of_int 0)
  ∧ (startswith a "Error" = false →
       turn_score a
       = fmin (float_of_int 5)
              (fmax (float_of_int 1) (fdiv (float_of_int (len a)) (float_of_int 50))))
  ∧ (startswith a "Error" = false → String.length a = 0%nat →
       turn_score a = float_of_int 1)
  ∧ (startswith a "Error" = false → String.length a = 250%nat →
       turn_score a = float_of_int 5)
  ∧ (startswith a "Error" = false → String.length a = 1000%nat →
       turn_score a = float_of_int 5).
Proof.
  unfold turn_score, len. split; [by intros ->|].
  split; [|by repeat split; intros -> ->].
  intros ->.
  change (float_of_int 1) with (S754_finite false 4503599627370496 (-52)).
  rewrite <- py_max_fmax. apply py_min_fmin.
  by apply py_max_comparable.
Qed.

Lemma turn_score_formula_witness :
  turn_score "Error: timeout" = float_of_int 0
  ∧ turn_score (letters 120)
    = fmin (float_of_int 5)
           (fmax (float_of_int 1) (fdiv (float_of_int 120) (float_of_int 50)))
  ∧ turn_score "" = float_of_int 1
  ∧ turn_score (letters 250) = float_of_int 5
  ∧ turn_score (letters 1000) = float_of_int 5.
Proof.
  split; [apply (proj1 (turn_score_formula "Error: timeout")); reflexivity|].
  split; [apply (proj1 (proj2 (turn_score_formula (letters 120)))); reflexivity|].
  split; [apply (proj1 (proj2 (proj2 (turn_score_formula "")))); reflexivity|].
  split.
  - apply (proj1 (proj2 (proj2 (proj2 (turn_score_formula (letters 250))))));
      vm_compute; reflexivity.
  - apply (proj2 (proj2 (proj2 (proj2 (turn_score_formula (letters 1000))))));
      vm_compute; reflexivity.
Defined.

(** ** Ordered dictionaries given by a function *)

Section Tabulate.
Context {V : Type}.
Implicit Types (f g : string → V) (ks : list string) (k : string) (v : V).

Lemma keys_tabulate f ks : keys (tabulate f ks) = ks.
Proof.
  unfold keys, tabulate. induction ks as [|a ks IH]; [done|].
  simpl. by f_equal.
Qed.

Lemma tabulate_snoc f ks k : tabulate f (ks ++ [k]) = tabulate f ks ++ [(k, f k)].
Proof. unfold tabulate. by rewrite fmap_app. Qed.

Lemma tabulate_ext f g ks :
  (∀ k, k ∈ ks → f k = g k) → tabulate f ks = tabulate g ks.
Proof.
  intros Hfg. unfold tabulate. induction ks as [|a ks IH]; [done|].
  simpl. rewrite Hfg by left. f_equal. apply IH. intros k Hk. apply Hfg. by right.
Qed.

Lemma dict_get_tabulate f ks k :
  dict_get k (tabulate f ks) = if decide (k ∈ ks) then Some (f k) else None.
Proof.
  induction ks as [|a ks IH].
  - destruct (decide (k ∈ [])) as [Hin%elem_of_nil|]; done.
  - cbn [tabulate fmap list_fmap dict_get]. fold (tabulate f ks). rewrite IH.
    destruct (decide (a = k)) as [->|Hne].
    + destruct (decide (k ∈ k :: ks)) as [|Hin]; [done|].
      destruct Hin. by left.
    + destruct (decide (k ∈ ks)) as [Hin|Hin];
        destruct (decide (k ∈ a :: ks)) as [Hin'|Hin']; try done.
      * destruct Hin'. by right.
      * by apply elem_of_cons in Hin' as [->|].
Qed.

Lemma dict_set_tabulate_notin f ks k v :
  k ∉ ks → dict_set k v (tabulate f ks) = tabulate f ks ++ [(k, v)].
Proof.
  induction ks as [|a ks IH]; simpl; [done|].
  rewrite not_elem_of_cons. intros [Hne Hin].
  rewrite decide_False by done. by rewrite IH.
Qed.

Lemma dict_set_tabulate_in f ks k v :
  NoDup ks → k ∈ ks →
  dict_set k v (tabulate f ks)
  = tabulate (λ u, if decide (u = k) then v else f u) ks.
Proof.
  induction ks as [|a ks IH]; simpl; [by intros _ ?%elem_of_nil|].
  rewrite NoDup_cons, elem_of_cons. intros [Ha Hnd] Hk.
  destruct (decide (a = k)) as [->|Hne].
  - f_equal. apply tabulate_ext. intros u Hu.
    rewrite decide_False; [done|]. by intros ->.
  - f_equal. apply IH; [done|]. by destruct Hk as [->|].
Qed.
End Tabulate.

(** ** Categories in order of first appearance *)

Lemma elem_of_first_seen (l : list string) (t : string) : t ∈ first_seen l ↔ t ∈ l.
Proof.
  induction l as [|a l IH]; simpl; [done|].
  rewrite !elem_of_cons, list_elem_of_filter, IH.
  destruct (decide (t = a)); tauto.
Qed.

Lemma NoDup_first_seen (l : list string) : NoDup (first_seen l).
Proof.
  induction l as [|a l IH]; simpl; [constructor|].
  apply NoDup_cons. split; [|by apply NoDup_filter].
  rewrite list_elem_of_filter. by intros [[] _].
Qed.

Lemma first_seen_snoc (l : list string) (t : string) :
  first_seen (l ++ [t]) = if decide (t ∈ l) then first_seen l else first_seen l ++ [t].
Proof.
  induction l as [|a l IH].
  - case_decide as Hin; [by apply elem_of_nil in Hin | done].
  - cbn [app first_seen]. rewrite IH.
    destruct (decide (t ∈ l)) as [Hin|Hin]; case_decide as Hin'; try done.
    + destruct Hin'. by right.
    + apply elem_of_cons in Hin' as [->|?]; [|done].
      rewrite filter_app, filter_cons_False by (by intros []).
      by rewrite filter_nil, app_nil_r.
    + rewrite filter_app, filter_cons_True; [done|].
      intros ->. apply Hin'. by left.
Qed.

Lemma scores_of_snoc (t : string) (l : list QA) (qa : QA) :
  scores_of t (l ++ [qa])
  = scores_of t l ++ (if decide (qa_task qa = t) then [turn_score (qa_answer qa)] else []).
Proof.
  unfold scores_of. rewrite filter_app, fmap_app. f_equal.
  destruct (decide (qa_task qa = t)) as [Ht|Ht].
  - by rewrite filter_cons_True.
  - by rewrite filter_cons_False.
Qed.

Lemma scores_of_absent (t : string) (l : list QA) :
  t ∉ qa_task <$> l → scores_of t l = [].
Proof.
  intros Ht. unfold scores_of. induction l as [|qa l IH]; [done|].
  rewrite fmap_cons, not_elem_of_cons in Ht. destruct Ht as [Hne Ht].
  rewrite filter_cons_False by (by intros <-). by apply IH.
Qed.

Lemma scores_of_present (t : string) (l : list QA) :
  t ∈ qa_task <$> l → (0 < length (scores_of t l))%nat.
Proof.
  intros Ht. unfold scores_of. rewrite length_fmap.
  apply list_elem_of_fmap in Ht as (qa & -> & Hqa).
  assert (Hin : qa ∈ filter (λ qa', qa_task qa' = qa_task qa) l)
    by by apply list_elem_of_filter.
  destruct (filter _ l); [by apply elem_of_nil in Hin | simpl; lia].
Qed.

(** ** The scoring loop keeps running sums and counts per category *)

Lemma score_turn_running (pre : list QA) (qa : QA) :
  score_turn (running_sums pre, running_counts pre) qa
  = Some (running_sums (pre ++ [qa]), running_counts (pre ++ [qa])).
Proof.
  unfold score_turn, running_sums, running_counts, dict_mem.
  cbn [fst snd]. rewrite keys_tabulate, fmap_app.
  change (qa_task <$> [qa]) with [qa_task qa]. rewrite first_seen_snoc.
  set (t := qa_task qa).
  set (F := λ u, fold_left fadd (scores_of u pre) (float_of_int 0)).
  set (C := λ u, Z.of_nat (length (scores_of u pre))).
  set (ks := first_seen (qa_task <$> pre)).
  set (ks' := if decide (t ∈ qa_task <$> pre) then ks else ks ++ [t]).
  assert (Hks : ∀ u, u ∈ ks ↔ u ∈ qa_task <$> pre)
    by (intros u; apply elem_of_first_seen).
  assert (Hst :
    (if negb (bool_decide (t ∈ ks))
     then (dict_set t (float_of_int 0) (tabulate F ks), dict_set t 0 (tabulate C ks))
     else (tabulate F ks, tabulate C ks))
    = (tabulate F ks', tabulate C ks')).
  { subst ks'. destruct (decide (t ∈ qa_task <$> pre)) as [Hin|Hin].
    - rewrite bool_decide_eq_true_2 by by apply Hks. done.
    - rewrite bool_decide_eq_false_2 by (by intros ?%Hks).
      cbn [negb]. rewrite !dict_set_tabulate_notin by (by intros ?%Hks).
      rewrite !tabulate_snoc. subst F C. cbn beta.
      by rewrite scores_of_absent. }
  rewrite Hst. clear Hst. cbn [fst snd].
  assert (Hin : t ∈ ks').
  { subst ks'. case_decide; [by apply Hks|].
    apply elem_of_app. right. by left. }
  assert (Hnd : NoDup ks').
  { subst ks'. case_decide; [apply NoDup_first_seen|].
    apply NoDup_app. split; [apply NoDup_first_seen|]. split.
    - intros u Hu%Hks ->%list_elem_of_singleton. done.
    - apply NoDup_singleton. }
  rewrite !dict_get_tabulate, !decide_True by done. cbn [mbind option_bind].
  rewrite !dict_set_tabulate_in by done.
  f_equal. f_equal.
  - apply tabulate_ext. intros u _. rewrite scores_of_snoc, fold_left_app.
    subst F t. cbn beta. destruct (decide (u = qa_task qa)) as [->|Hne].
    + by rewrite decide_True.
    + by rewrite decide_False by done.
  - apply tabulate_ext. intros u _. rewrite scores_of_snoc, length_app.
    subst C t. cbn beta. destruct (decide (u = qa_task qa)) as [->|Hne].
    + rewrite decide_True by done. simpl. lia.
    + rewrite decide_False by done. simpl. lia.
Qed.

Lemma score_turns_running (rest pre : list QA) :
  score_turns (running_sums pre, running_counts pre) rest
  = Some (running_sums (pre ++ rest), running_counts (pre ++ rest)).
Proof.
  revert pre. induction rest as [|qa rest IH]; intros pre.
  - by rewrite app_nil_r.
  - cbn [score_turns]. rewrite score_turn_running. cbn [mbind option_bind].
    rewrite IH. by rewrite <- app_assoc.
Qed.

Lemma average_tasks_tabulate (C : string → Z) (ks ts : list string) :
  NoDup ks → NoDup ts → ts ⊆ ks → (∀ t, t ∈ ts → C t > 0) →
  ∀ G : string → float,
    average_tasks (tabulate C ks) (tabulate G ks) ts
    = Some (tabulate (λ u, if decide (u ∈ ts)
                           then fdiv (G u) (float_of_int (C u)) else G u) ks).
Proof.
  intros Hks. induction ts as [|t ts IH]; intros Hts Hsub Hpos G.
  - reflexivity.
  - apply NoDup_cons in Hts as [Ht Hts].
    assert (Hin : t ∈ ks) by (apply Hsub; by left).
    cbn [average_tasks]. unfold average_task.
    rewrite !dict_get_tabulate, !decide_True by done. cbn [mbind option_bind].
    rewrite bool_decide_eq_true_2 by (apply Hpos; by left).
    rewrite dict_set_tabulate_in by done.
    cbn [mbind option_bind]. rewrite IH; [|done| |].
    + f_equal. apply tabulate_ext. intros u _.
      destruct (decide (u = t)) as [->|Hne].
      * rewrite decide_False by done. by rewrite decide_True by left.
      * destruct (decide (u ∈ ts)) as [Hu|Hu].
        -- by rewrite decide_True by by right.
        -- rewrite decide_False; [done|]. by intros [->|]%elem_of_cons.
    + intros u Hu. apply Hsub. by right.
    + intros u Hu. apply Hpos. by right.
Qed.

Lemma score_answers_eq (persona : string) (qa_pairs : list QA) :
  _score_answers persona qa_pairs
  = Some {| overall_score := mean_of_means qa_pairs;
            per_task_scores := category_means qa_pairs |}.
Proof.
  unfold _score_answers.
  change (@nil (string * float), @nil (string * Z))
    with (running_sums [], running_counts []).
  rewrite score_turns_running. cbn [mbind option_bind app].
  unfold running_sums at 1 2, running_counts. rewrite keys_tabulate.
  rewrite average_tasks_tabulate.
  - cbn [mbind option_bind].
    assert (Hm : tabulate
              (λ u, if decide (u ∈ first_seen (qa_task <$> qa_pairs))
                    then fdiv (fold_left fadd (scores_of u qa_pairs) (float_of_int 0))
                              (float_of_int (Z.of_nat (length (scores_of u qa_pairs))))
                    else fold_left fadd (scores_of u qa_pairs) (float_of_int 0))
              (first_seen (qa_task <$> qa_pairs))
            = category_means qa_pairs).
    { apply tabulate_ext. intros u Hu. by rewrite decide_True. }
    rewrite Hm. unfold mean_of_means.
    destruct (category_means qa_pairs) as [|e ms]; [done|].
    unfold mean, py_sum, values. by rewrite length_fmap.
  - apply NoDup_first_seen.
  - apply NoDup_first_seen.
  - done.
  - intros t Ht%elem_of_first_seen%scores_of_present. lia.
Qed.

(** C1: [_score_answers] returns, for every list of records, a map with
    one key per category that has a turn, holding the arithmetic mean of
    the scores of that category's turns, and an overall score that is
    the arithmetic mean of these per-category means, each category
    counting once; the overall score is 0.0 for the empty list. *)
Theorem score_answers_mean_of_category_means (persona : string) (qa_pairs : list QA) :
  ∃ r, _score_answers persona qa_pairs = Some r
    ∧ (∀ t, dict_get t (per_task_scores r)
            = if decide (t ∈ qa_task <$> qa_pairs)
              then Some (mean (scores_of t qa_pairs)) else None)
    ∧ (∀ t, t ∈ keys (per_task_scores r) ↔ ∃ qa, qa ∈ qa_pairs ∧ qa_task qa = t)
    ∧ keys (per_task_scores r) = first_seen (qa_task <$> qa_pairs)
    ∧ NoDup (keys (per_task_scores r))
    ∧ overall_score r
      = match per_task_scores r with
        | [] => float_of_int 0
        | ms => mean (values ms)
        end
    ∧ overall_score r = mean_of_means qa_pairs
    ∧ (qa_pairs = [] → overall_score r = float_of_int 0).
Proof.
  eexists. split; [apply score_answers_eq|]. cbn [per_task_scores overall_score].
  assert (Hkeys : keys (category_means qa_pairs) = first_seen (qa_task <$> qa_pairs))
    by apply keys_tabulate.
  split.
  { intros t. unfold category_means. rewrite dict_get_tabulate.
    destruct (decide (t ∈ qa_task <$> qa_pairs)) as [Hin|Hin].
    - by rewrite decide_True by by apply elem_of_first_seen.
    - by rewrite decide_False by by rewrite elem_of_first_seen. }
  split.
  { intros t. rewrite Hkeys, elem_of_first_seen, list_elem_of_fmap. split.
    - intros (qa & -> & Hqa). eauto.
    - intros (qa & Hqa & <-). eauto. }
  split; [done|]. split; [rewrite Hkeys; apply NoDup_first_seen|].
  split; [done|]. split; [done|]. by intros ->.
Qed.

Lemma score_answers_mean_of_category_means_witness :
  (∃ r, _score_answers "A baker" [] = Some r ∧ overall_score r = float_of_int 0)
  ∧ (∃ r, _score_answers "A baker" example_turns = Some r
       ∧ dict_get "A" (per_task_scores r) = Some (float_of_int 3)
       ∧ dict_get "B" (per_task_scores r) = Some (float_of_int 4)
       ∧ keys (per_task_scores r) = ["A"; "B"]
       ∧ overall_score r = fdiv (float_of_int 7) (float_of_int 2)
       ∧ overall_score r ≠ fdiv (float_of_int 10) (float_of_int 3)).
Proof.
  split.
  - destruct (score_answers_mean_of_category_means "A baker" [])
      as (r & Hr & _ & _ & _ & _ & _ & _ & Hempty).
    exists r. split; [exact Hr | by apply Hempty].
  - destruct (score_answers_mean_of_category_means "A baker" example_turns)
      as (r & Hr & Hget & _ & Hkeys & _ & _ & _ & _).
    exists r. split; [exact Hr|].
    split; [rewrite Hget; reflexivity|]. split; [rewrite Hget; reflexivity|].
    split; [rewrite Hkeys; reflexivity|].
    vm_compute in Hr. injection Hr as <-. split; [reflexivity | discriminate].
Defined.

(** ** The conversation loop *)

Section Conversation.
Context `{Network W}.
Implicit Types (url : string) (qs : list Question) (w : W) (ctx : ContextId).

Lemma ask_question_run url (q : Question) (st : ContextId * list QA) w :
  ask_question url q st w
  = let '(o, w') := net_send (q_question q) url st.1 w in
    (Ok (default st.1 (fresh_token o),
         st.2 ++ [{| qa_task := q_task q; qa_question := q_question q;
                     qa_answer := answer_of o |}]),
     [EvSend (q_question q) url st.1 o], w').
Proof.
  unfold ask_question, try_except, send_message, mbind, Eff_bind, mret, Eff_ret.
  by destruct (net_send (q_question q) url st.1 w) as [[r|cause] w'].
Qed.

Lemma ask_loop_asked url qs :
  ∀ (st : ContextId * list QA) w,
    ∃ qas evs w',
      ask_loop url qs st w = (Ok (st.2 ++ qas), evs, w')
      ∧ Asked url st.1 qs evs qas.
Proof.
  induction qs as [|q qs IH]; intros st w.
  - exists [], [], w. split; [|constructor].
    cbn. by rewrite app_nil_r.
  - cbn [ask_loop]. unfold mbind, Eff_bind. rewrite ask_question_run.
    destruct (net_send (q_question q) url st.1 w) as [o w1].
    destruct (IH (default st.1 (fresh_token o),
                  st.2 ++ [{| qa_task := q_task q; qa_question := q_question q;
                              qa_answer := answer_of o |}]) w1)
      as (qas & evs & w' & Hrun & Hasked).
    rewrite Hrun. cbn [fst snd] in *.
    eexists (_ :: qas), (_ :: evs), w'. split.
    + by rewrite <- app_assoc.
    + by constructor.
Qed.

Lemma ask_questions_asked url qs w :
  ∃ qa_pairs evs w',
    _ask_questions url qs w = (Ok qa_pairs, evs, w')
    ∧ Asked url None qs evs qa_pairs.
Proof. apply (ask_loop_asked url qs (None, []) w). Qed.
End Conversation.

Lemma Asked_length url ctx qs evs qas :
  Asked url ctx qs evs qas → length evs = length qs ∧ length qas = length qs.
Proof. induction 1 as [|ctx q o qs evs qas _ [IH1 IH2]]; simpl; auto. Qed.

Lemma Asked_lookup url ctx qs evs qas (i : nat) (q : Question) :
  Asked url ctx qs evs qas → qs !! i = Some q →
  ∃ c o, evs !! i = Some (EvSend (q_question q) url c o)
       ∧ qas !! i = Some {| qa_task := q_task q; qa_question := q_question q;
                            qa_answer := answer_of o |}.
Proof.
  intros Ha. revert i. induction Ha as [|ctx q' o qs evs qas _ IH]; intros i Hi.
  - done.
  - destruct i as [|i]; cbn in *.
    + injection Hi as ->. eauto.
    + by apply IH.
Qed.

Lemma Asked_events url ctx qs evs qas (i : nat) (ev : Event) :
  Asked url ctx qs evs qas → evs !! i = Some ev →
  ∃ q c o, qs !! i = Some q ∧ ev = EvSend (q_question q) url c o.
Proof.
  intros Ha. revert i. induction Ha as [|ctx q' o qs evs qas _ IH]; intros i Hi.
  - done.
  - destruct i as [|i]; cbn in *.
    + injection Hi as <-. eauto.
    + by apply IH.
Qed.




Lemma Asked_tasks url ctx qs evs qas :
  Asked url ctx qs evs qas →
  qa_task <$> qas = q_task <$> qs ∧ qa_question <$> qas = q_question <$> qs.
Proof.
  induction 1 as [|ctx q o qs evs qas _ [IH1 IH2]]; [done|].
  cbn. by rewrite IH1, IH2.
Qed.

(** C3: for [N] questions [_ask_questions] returns [N] records, in the
    order of the questions; every question is sent, whatever happened
    to the ones before it; and the record of an exchange that raised
    holds the answer "Error: " followed by the cause. *)
Theorem ask_questions_isolates_failures `{Network W}
    (url : string) (qs : list Question) (w : W) :
  ∃ qa_pairs evs w',
    _ask_questions url qs w = (Ok qa_pairs, evs, w')
    ∧ length qa_pairs = length qs
    ∧ qa_task <$> qa_pairs = q_task <$> qs
    ∧ qa_question <$> qa_pairs = q_question <$> qs
    ∧ length evs = length qs
    ∧ (∀ (i : nat) q, qs !! i = Some q →
         ∃ ctx o a,
           evs !! i = Some (EvSend (q_question q) url ctx o)
           ∧ qa_pairs !! i = Some {| qa_task := q_task q; qa_question := q_question q;
                                     qa_answer := a |}
           ∧ (∀ cause, o = SendRaise cause → a = "Error: " +:+ cause)).
Proof.
  destruct (ask_questions_asked url qs w) as (qa_pairs & evs & w' & Hrun & Ha).
  exists qa_pairs, evs, w'. split; [done|].
  destruct (Asked_length _ _ _ _ _ Ha) as [Hl1 Hl2].
  destruct (Asked_tasks _ _ _ _ _ Ha) as [Ht1 Ht2].
  repeat (split; [done|]).
  intros i q Hq. destruct (Asked_lookup _ _ _ _ _ i q Ha Hq) as (c & o & Hev & Hqa).
  exists c, o, (answer_of o). repeat (split; [done|]). by intros cause ->.
Qed.

Lemma ask_questions_isolates_failures_witness :
  ∃ qa_pairs evs w',
    _ask_questions "http://white:8001" three_questions second_turn_fails
    = (Ok qa_pairs, evs, w')
    ∧ length qa_pairs = 3%nat
    ∧ qa_answer <$> qa_pairs !! 1%nat = Some "Error: timeout"
    ∧ qa_answer <$> qa_pairs !! 2%nat = Some "I knead.".
Proof.
  destruct (ask_questions_isolates_failures
              "http://white:8001" three_questions second_turn_fails)
    as (qa_pairs & evs & w' & Hrun & Hlen & _ & _ & _ & Hturn).
  exists qa_pairs, evs, w'. split; [exact Hrun|]. split; [exact Hlen|].
  destruct (Hturn 1%nat _ eq_refl) as (c1 & o1 & a1 & Hev1 & Hqa1 & Hraise).
  destruct (Hturn 2%nat _ eq_refl) as (c2 & o2 & a2 & Hev2 & Hqa2 & _).
  vm_compute in Hrun. injection Hrun as <- <- <-.
  injection Hev1 as <- <-. rewrite (Hraise _ eq_refl) in Hqa1.
  split; [reflexivity | reflexivity].
Defined.



(** ** The run of an evaluation *)

Section Run.
Context `{Network W}.
Implicit Types (req : EvalRequest) (url persona : string) (w : W).

Lemma get_persona_run url w :
  _get_persona_from_profile url w
  = let profile_url := rstrip_slash url +:+ "/profile" in
    let '(o, w') := net_get profile_url w in
    (Ok match o with
        | GetJson field => default "Error: Persona description not found." field
        | GetRequestError => "Error: Failed to connect to White Agent at " +:+ profile_url
        | GetOtherError => "Error: Could not retrieve persona."
        end,
     [EvGet profile_url o], w').
Proof.
  unfold _get_persona_from_profile, client_get, mbind, Eff_bind, mret, Eff_ret.
  by destruct (net_get _ w) as [[| |[p|]] w'].
Qed.

(** Whatever went wrong on the way to the profile, the persona is an
    error marker. *)
Lemma failed_discovery_marked url w persona evs w' o :
  _get_persona_from_profile url w = (Ok persona, evs, w') →
  (net_get (rstrip_slash url +:+ "/profile") w).1 = o →
  o = GetRequestError ∨ o = GetOtherError ∨ o = GetJson None →
  startswith persona "Error" = true.
Proof.
  rewrite get_persona_run. cbn zeta.
  destruct (net_get _ w) as [o' w1]. cbn [fst].
  intros [= <- _ _] <- [-> | [-> | ->]]; reflexivity.
Qed.

(** A message without braces is logged without an exception. *)
Lemma format_raises_no_brace (message : string) :
  has_brace message = false → format_raises message = None.
Proof. unfold format_raises. by intros ->. Qed.

Lemma format_raises_has_brace (message e : string) :
  format_raises message = Some e → has_brace message = true.
Proof. unfold format_raises. by destruct (has_brace message). Qed.

(** The run after a persona that is an error marker: the handler logs
    the error first, and what it does next hangs on that call. *)
Lemma run_eval_abort_cases req url w persona evs0 w0 :
  participants req !! "agent" = Some url →
  _get_persona_from_profile url w = (Ok persona, evs0, w0) →
  startswith persona "Error" = true →
  run_eval req w
  = match format_raises ("Evaluation failed: Failed to get persona: " +:+ persona) with
    | None =>
        (Exn ("Failed to get persona: " +:+ persona),
         [EvStatus ("Starting PersonaGym evaluation of agent at " +:+ url);
          EvStatus "Fetching persona from white agent..."]
         ++ evs0
         ++ [EvFailed ("Evaluation failed: Failed to get persona: " +:+ persona)],
         w0)
    | Some e =>
        (Exn e,
         [EvStatus ("Starting PersonaGym evaluation of agent at " +:+ url);
          EvStatus "Fetching persona from white agent..."]
         ++ evs0,
         w0)
    end.
Proof.
  intros Hurl Hp Herr. unfold run_eval. rewrite Hurl.
  unfold subscript, try_except, logger_error, update_status, failed, emit, raise,
    mbind, Eff_bind, mret, Eff_ret.
  rewrite Hp, Herr.
  change ("Evaluation failed: " +:+ "Failed to get persona: " +:+ persona)
    with ("Evaluation failed: Failed to get persona: " +:+ persona).
  destruct (format_raises _) as [e|]; cbn; by rewrite !app_nil_r.
Qed.

Lemma run_eval_aborts req url w persona evs0 w0 :
  participants req !! "agent" = Some url →
  _get_persona_from_profile url w = (Ok persona, evs0, w0) →
  startswith persona "Error" = true →
  format_raises ("Evaluation failed: Failed to get persona: " +:+ persona) = None →
  run_eval req w
  = (Exn ("Failed to get persona: " +:+ persona),
     [EvStatus ("Starting PersonaGym evaluation of agent at " +:+ url);
      EvStatus "Fetching persona from white agent..."]
     ++ evs0
     ++ [EvFailed ("Evaluation failed: Failed to get persona: " +:+ persona)],
     w0).
Proof.
  intros Hurl Hp Herr Hlog.
  by rewrite (run_eval_abort_cases req url w _ _ _ Hurl Hp Herr), Hlog.
Qed.

(** A persona without braces makes a message without braces. *)
Lemma abort_message_no_brace persona :
  has_brace persona = false →
  format_raises ("Evaluation failed: Failed to get persona: " +:+ persona) = None.
Proof. intros Hb. apply format_raises_no_brace. exact Hb. Qed.

Lemma run_eval_proceeds req url w persona evs0 w0 :
  participants req !! "agent" = Some url →
  _get_persona_from_profile url w = (Ok persona, evs0, w0) →
  startswith persona "Error" = false →
  ∃ qs qa_pairs evs_ask w1 scores,
    _generate_questions persona (default 4 (cfg_num_questions (config req)))
                        (default "general" (cfg_domain (config req))) = Some qs
    ∧ _ask_questions url qs w0 = (Ok qa_pairs, evs_ask, w1)
    ∧ _score_answers persona qa_pairs = Some scores
    ∧ run_eval req w
      = (Ok (),
         [EvStatus ("Starting PersonaGym evaluation of agent at " +:+ url);
          EvStatus "Fetching persona from white agent..."]
         ++ evs0
         ++ [EvStatus ("Persona: " +:+ slice_to 100 persona +:+ "...");
             EvStatus "Generating evaluation questions...";
             EvStatus ("Asking " +:+ pretty (length qs) +:+ " questions...")]
         ++ evs_ask
         ++ [EvStatus "Scoring answers...";
             EvArtifact {| rd_persona := persona;
                           rd_persona_score := overall_score scores;
                           rd_per_task_scores := per_task_scores scores;
                           rd_num_questions := Z.of_nat (length qs) |}],
         w1).
Proof.
  intros Hurl Hp Herr.
  destruct (generate_questions_total persona
              (default 4 (cfg_num_questions (config req)))
              (default "general" (cfg_domain (config req)))) as (qs & Hqs & _).
  destruct (ask_questions_asked url qs w0) as (qa_pairs & evs_ask & w1 & Hask & _).
  pose proof (score_answers_eq persona qa_pairs) as Hscore.
  eexists qs, qa_pairs, evs_ask, w1, _.
  split; [done|]. split; [done|]. split; [exact Hscore|].
  unfold run_eval. rewrite Hurl.
  unfold subscript, try_except, update_status, add_artifact, emit, raise,
    mbind, Eff_bind, mret, Eff_ret.
  rewrite Hp, Herr, Hqs, Hask, Hscore. reflexivity.
Qed.
End Run.

Ltac not_in_events :=
  let Hin := fresh "Hin" in
  intros Hin;
  repeat (apply elem_of_cons in Hin as [Hin|Hin]; [discriminate Hin|]);
  by apply elem_of_nil in Hin.

(** C7: the handler of [run_eval] loses the failure report of a failed
    discovery when the error marker has a brace in it: the call that
    logs the error formats its message, finds no value for the field in
    the braces and raises the [KeyError] of it.  The run ends with that
    exception in place of the cause that names the persona step, and
    nothing is reported to the task updater.  So it is for an agent
    whose profile says "Error: persona {name} not configured", and for
    an agent that cannot be reached at "http://white:8001/?q={x}", where
    the marker repeats the address. *)
Theorem discovery_failure_report_lost :
  (_get_persona_from_profile "http://white:8001/" unfilled_marker
   = (Ok "Error: persona {name} not configured",
      [EvGet "http://white:8001/profile"
             (GetJson (Some "Error: persona {name} not configured"))],
      unfilled_marker)
   ∧ startswith "Error: persona {name} not configured" "Error" = true
   ∧ format_raises "Evaluation failed: Failed to get persona: Error: persona {name} not configured"
     = Some "'name'"
   ∧ run_eval (request_for "http://white:8001/" 4) unfilled_marker
     = (Exn "'name'",
        [EvStatus "Starting PersonaGym evaluation of agent at http://white:8001/";
         EvStatus "Fetching persona from white agent...";
         EvGet "http://white:8001/profile"
               (GetJson (Some "Error: persona {name} not configured"))],
        unfilled_marker)
   ∧ List.filter is_failed
       (run_eval (request_for "http://white:8001/" 4) unfilled_marker).1.2 = [])
  ∧ (_get_persona_from_profile "http://white:8001/?q={x}" unreachable
     = (Ok "Error: Failed to connect to White Agent at http://white:8001/?q={x}/profile",
        [EvGet "http://white:8001/?q={x}/profile" GetRequestError],
        unreachable)
     ∧ format_raises "Evaluation failed: Failed to get persona: Error: Failed to connect to White Agent at http://white:8001/?q={x}/profile"
       = Some "'x'"
     ∧ run_eval (request_for "http://white:8001/?q={x}" 4) unreachable
       = (Exn "'x'",
          [EvStatus "Starting PersonaGym evaluation of agent at http://white:8001/?q={x}";
           EvStatus "Fetching persona from white agent...";
           EvGet "http://white:8001/?q={x}/profile" GetRequestError],
          unreachable)
     ∧ List.filter is_failed
         (run_eval (request_for "http://white:8001/?q={x}" 4) unreachable).1.2 = []).
Proof. repeat split; vm_compute; reflexivity. Qed.


(** C4 as stated fails: an empty persona description is not treated as
    a missing field.  The discovery step returns the empty string, which
    is no error marker, and the run goes on to generate and ask the
    questions. *)
Lemma empty_persona_description_accepted :
  _get_persona_from_profile "http://white:8001/" empty_description
  = (Ok "", [EvGet "http://white:8001/profile" (GetJson (Some ""))], empty_description)
  ∧ startswith "" "Error" = false
  ∧ (run_eval (request_for "http://white:8001/" 2) empty_description).1.1 = Ok ()
  ∧ EvStatus "Generating evaluation questions..."
    ∈ (run_eval (request_for "http://white:8001/" 2) empty_description).1.2
  ∧ EvSend "How would you introduce yourself?" "http://white:8001/" None
           (reply "Hello." "c1")
    ∈ (run_eval (request_for "http://white:8001/" 2) empty_description).1.2.
Proof.
  split; [reflexivity|]. split; [reflexivity|]. split; [reflexivity|].
  split; vm_compute; set_solver.
Qed.

(** C4, amended: the discovery step returns the persona description of
    the profile as it is.  It reports "Error: Persona description not
    found." only when the field is absent, and the run then stops before
    the questions are generated; an empty description is returned as
    the persona, and the run goes on to generate the questions. *)
Theorem persona_description_returned_as_is `{Network W}
    (req : EvalRequest) (url : string) (w w0 : W) (field : option string) :
  participants req !! "agent" = Some url →
  net_get (rstrip_slash url +:+ "/profile") w = (GetJson field, w0) →
  (field = None →
     _get_persona_from_profile url w
     = (Ok "Error: Persona description not found.",
        [EvGet (rstrip_slash url +:+ "/profile") (GetJson None)], w0)
     ∧ run_eval req w
       = (Exn "Failed to get persona: Error: Persona description not found.",
          [EvStatus ("Starting PersonaGym evaluation of agent at " +:+ url);
           EvStatus "Fetching persona from white agent...";
           EvGet (rstrip_slash url +:+ "/profile") (GetJson None);
           EvFailed "Evaluation failed: Failed to get persona: Error: Persona description not found."],
          w0))
  ∧ (∀ p, field = Some p →
       _get_persona_from_profile url w
       = (Ok p, [EvGet (rstrip_slash url +:+ "/profile") (GetJson (Some p))], w0))
  ∧ (field = Some "" →
       ∃ qs evs w1,
         _generate_questions "" (default 4 (cfg_num_questions (config req)))
                             (default "general" (cfg_domain (config req))) = Some qs
         ∧ run_eval req w
           = (Ok (),
              [EvStatus ("Starting PersonaGym evaluation of agent at " +:+ url);
               EvStatus "Fetching persona from white agent...";
               EvGet (rstrip_slash url +:+ "/profile") (GetJson (Some ""));
               EvStatus "Persona: ...";
               EvStatus "Generating evaluation questions...";
               EvStatus ("Asking " +:+ pretty (length qs) +:+ " questions...")]
              ++ evs,
              w1)).
Proof.
  intros Hurl Hget.
  pose proof (get_persona_run url w) as Hp. cbn zeta in Hp. rewrite Hget in Hp.
  split; [|split].
  - intros ->. split; [exact Hp|].
    by rewrite (run_eval_aborts req url w _ _ _ Hurl Hp eq_refl eq_refl).
  - by intros p ->.
  - intros ->.
    destruct (run_eval_proceeds req url w _ _ _ Hurl Hp eq_refl)
      as (qs & qa_pairs & evs_ask & w1 & scores & Hqs & _ & _ & Hrun).
    eexists qs, _, w1. split; [exact Hqs|]. rewrite Hrun. reflexivity.
Qed.

Lemma persona_description_returned_as_is_witness :
  (run_eval (request_for "http://white:8001/" 2) no_description).1.1
  = Exn "Failed to get persona: Error: Persona description not found."
  ∧ _get_persona_from_profile "http://white:8001/" empty_description
    = (Ok "", [EvGet "http://white:8001/profile" (GetJson (Some ""))], empty_description)
  ∧ ∃ qs evs w1,
      _generate_questions "" 2 "general" = Some qs
      ∧ run_eval (request_for "http://white:8001/" 2) empty_description
        = (Ok (),
           [EvStatus "Starting PersonaGym evaluation of agent at http://white:8001/";
            EvStatus "Fetching persona from white agent...";
            EvGet "http://white:8001/profile" (GetJson (Some ""));
            EvStatus "Persona: ...";
            EvStatus "Generating evaluation questions...";
            EvStatus ("Asking " +:+ pretty (length qs) +:+ " questions...")]
           ++ evs,
           w1).
Proof.
  split; [|split].
  - destruct (@persona_description_returned_as_is Script scripted
                (request_for "http://white:8001/" 2) "http://white:8001/"
                no_description no_description None eq_refl eq_refl)
      as (Hnone & _ & _).
    destruct (Hnone eq_refl) as [_ Hrun]. rewrite Hrun. reflexivity.
  - destruct (@persona_description_returned_as_is Script scripted
                (request_for "http://white:8001/" 2) "http://white:8001/"
                empty_description empty_description (Some "") eq_refl eq_refl)
      as (_ & Hsome & _).
    exact (Hsome "" eq_refl).
  - destruct (@persona_description_returned_as_is Script scripted
                (request_for "http://white:8001/" 2) "http://white:8001/"
                empty_description empty_description (Some "") eq_refl eq_refl)
      as (_ & _ & Hempty).
    exact (Hempty eq_refl).
Defined.

(** ** Validation *)

Lemma missing_roles_without_agent (req : EvalRequest) :
  participants req !! "agent" = None →
  list_to_set _required_roles ∖ dom (participants req) = ({[ "agent" ]} : gset string).
Proof.
  intros Hnone. apply not_elem_of_dom in Hnone.
  apply set_eq. intros x. unfold _required_roles.
  rewrite elem_of_difference, elem_of_list_to_set, list_elem_of_singleton,
    elem_of_singleton.
  split; [by intros [-> _] | by intros ->].
Qed.

Lemma missing_roles_with_agent (req : EvalRequest) :
  is_Some (participants req !! "agent") →
  list_to_set _required_roles ∖ dom (participants req) = (∅ : gset string).
Proof.
  intros Hsome. apply elem_of_dom in Hsome.
  apply set_eq. intros x. unfold _required_roles.
  rewrite elem_of_difference, elem_of_list_to_set, list_elem_of_singleton.
  split; [by intros [-> []] | by intros ?%not_elem_of_empty].
Qed.

(** C8: a request whose participants lack the role "agent" fails
    validation with a reason that names the role, the run ends as a
    validation failure and nothing is sent to the white agent; a request
    that has the role validates. *)
Theorem missing_agent_role_fails_validation (req : EvalRequest) :
  (participants req !! "agent" = None →
     validate_request req = (false, "Missing roles: {'agent'}")
     ∧ ∀ `(Network W) (w : W),
         run req w = (Failed (ValidationError "Missing roles: {'agent'}"), [], w)
         ∧ network_calls (run req w).1.2 = [])
  ∧ (is_Some (participants req !! "agent") → validate_request req = (true, "ok")).
Proof.
  split.
  - intros Hnone.
    assert (Hv : validate_request req = (false, "Missing roles: {'agent'}")).
    { unfold validate_request. rewrite (missing_roles_without_agent req Hnone).
      rewrite bool_decide_eq_true_2 by set_solver.
      unfold repr_set. by rewrite elements_singleton. }
    split; [exact Hv|]. intros W N w. unfold run. by rewrite Hv.
  - intros Hsome. unfold validate_request.
    rewrite (missing_roles_with_agent req Hsome).
    by rewrite bool_decide_eq_false_2 by (by intros []).
Qed.

Lemma missing_agent_role_fails_validation_witness :
  validate_request no_participants = (false, "Missing roles: {'agent'}")
  ∧ run no_participants unreachable
    = (Failed (ValidationError "Missing roles: {'agent'}"), [], unreachable)
  ∧ validate_request (request_for "http://white:8001/" 4) = (true, "ok").
Proof.
  destruct (missing_agent_role_fails_validation no_participants) as [Hmiss _].
  destruct (Hmiss eq_refl) as [Hv Hrun].
  destruct (missing_agent_role_fails_validation (request_for "http://white:8001/" 4))
    as [_ Hok].
  split; [exact Hv|]. split; [exact (proj1 (Hrun _ _ unreachable))|].
  apply Hok. eexists. reflexivity.
Defined.

(** * Further properties of the evaluator *)

(** ** The range of a turn's score *)

Lemma turn_score_cases (a : string) :
  startswith a "Error" = false →
  SFleb (float_of_int 1) (turn_score a) = true
  ∧ SFleb (turn_score a) (float_of_int 5) = true.
Proof.
  intros Hne. unfold turn_score. rewrite Hne.
  generalize (fdiv (float_of_int (len a)) (float_of_int 50)). intros x.
  unfold py_min, py_max, SFltb.
  destruct (SFcompare (float_of_int 1) x) as [[]|] eqn:H1; try (split; reflexivity).
  destruct (SFcompare x (float_of_int 5)) as [[]|] eqn:H5; try (split; reflexivity).
  unfold SFleb. by rewrite H1, H5.
Qed.

(** X1: the score of a turn is 0.0 for an answer that begins with
    "Error" and lies between 1.0 and 5.0, both included, for any other
    answer; in particular it is never a NaN or an infinity. *)
Theorem turn_score_range (a : string) :
  (startswith a "Error" = true ∧ turn_score a = float_of_int 0)
  ∨ (startswith a "Error" = false
     ∧ SFleb (float_of_int 1) (turn_score a) = true
     ∧ SFleb (turn_score a) (float_of_int 5) = true).
Proof.
  destruct (startswith a "Error") eqn:He.
  - left. split; [done|]. unfold turn_score. by rewrite He.
  - right. split; [done|]. by apply turn_score_cases.
Qed.

(** ** What a turn records, and how it is scored *)

Lemma Asked_answer url ctx qs evs qas (i : nat) m u c o (qa : QA) :
  Asked url ctx qs evs qas →
  evs !! i = Some (EvSend m u c o) → qas !! i = Some qa →
  qa_answer qa = answer_of o.
Proof.
  intros Ha. revert i. induction Ha as [|ctx q' o' qs evs qas _ IH]; intros i Hev Hqa.
  - done.
  - destruct i as [|i]; cbn [lookup list_lookup] in Hev, Hqa.
    + injection Hev as _ _ _ <-. by injection Hqa as <-.
    + by apply (IH i).
Qed.

(** X2: in the records of [_ask_questions], an exchange that raised and
    a response without the key 'response' leave an answer that scores
    0.0; a response with the key leaves its text as it is, so that an
    empty text is recorded as an empty answer, which scores 1.0. *)
Theorem failed_turns_score_zero `{Network W}
    (url : string) (qs : list Question) (w : W) :
  ∃ qa_pairs evs w',
    _ask_questions url qs w = (Ok qa_pairs, evs, w')
    ∧ ∀ (i : nat) m u c o qa,
        evs !! i = Some (EvSend m u c o) → qa_pairs !! i = Some qa →
        (∀ cause, o = SendRaise cause →
           qa_answer qa = "Error: " +:+ cause
           ∧ turn_score (qa_answer qa) = float_of_int 0)
        ∧ (∀ r, o = SendReturn r → response r = None →
             qa_answer qa = "Error: No response"
             ∧ turn_score (qa_answer qa) = float_of_int 0)
        ∧ (∀ r text, o = SendReturn r → response r = Some text →
             qa_answer qa = text
             ∧ (text = "" → turn_score (qa_answer qa) = float_of_int 1)).
Proof.
  destruct (ask_questions_asked url qs w) as (qa_pairs & evs & w' & Hrun & Ha).
  exists qa_pairs, evs, w'. split; [done|].
  intros i m u c o qa Hev Hqa.
  rewrite (Asked_answer _ _ _ _ _ _ _ _ _ _ _ Ha Hev Hqa).
  split; [|split].
  - by intros cause ->.
  - intros r -> Hr. cbn. by rewrite Hr.
  - intros r text -> Hr. cbn. rewrite Hr. split; [done|]. by intros ->.
Qed.

Lemma failed_turns_score_zero_witness :
  ∃ qa_pairs evs w',
    _ask_questions "http://white:8001" three_questions second_turn_fails
    = (Ok qa_pairs, evs, w')
    ∧ (turn_score ∘ qa_answer) <$> qa_pairs !! 1%nat = Some (float_of_int 0)
    ∧ qa_answer <$> qa_pairs !! 0%nat = Some "I am a baker.".
Proof.
  destruct (failed_turns_score_zero
              "http://white:8001" three_questions second_turn_fails)
    as (qa_pairs & evs & w' & Hrun & Hturn).
  exists qa_pairs, evs, w'. split; [exact Hrun|].
  vm_compute in Hrun. injection Hrun as <- <- <-.
  destruct (Hturn 1%nat _ _ _ _ _ eq_refl eq_refl) as (Hraise & _ & _).
  destruct (Hturn 0%nat _ _ _ _ _ eq_refl eq_refl) as (_ & _ & Htext).
  split.
  - exact (f_equal Some (proj2 (Hraise _ eq_refl))).
  - exact (f_equal Some (proj1 (Htext _ _ eq_refl eq_refl))).
Defined.

(** ** Context ids come from the white agent *)

Lemma Asked_token_source url ctx qs evs qas (i : nat) m u tok o :
  Asked url ctx qs evs qas →
  evs !! i = Some (EvSend m u (Some tok) o) →
  ctx = Some tok
  ∨ ∃ (j : nat) m' u' c' r,
      (j < i)%nat ∧ evs !! j = Some (EvSend m' u' c' (SendReturn r))
      ∧ context_id r = Some (Some tok).
Proof.
  intros Ha. revert i. induction Ha as [|ctx q' o' qs evs qas _ IH]; intros i Hev.
  - done.
  - destruct i as [|i]; cbn [lookup list_lookup] in Hev.
    + injection Hev as _ _ -> _. by left.
    + destruct (IH i Hev) as [Hctx|(j & m' & u' & c' & r & Hj & Hevj & Hr)].
      * destruct o' as [r|cause]; cbn in Hctx.
        -- destruct (context_id r) as [c0|] eqn:Hc0; cbn in Hctx.
           ++ right. exists 0%nat, (q_question q'), url, ctx, r.
              split; [lia|]. split; [done|]. by rewrite Hc0, Hctx.
           ++ by left.
        -- by left.
      * right. exists (S j), m', u', c', r. split; [lia|]. by split.
Qed.

(** X3: the evaluator never makes up a context id: a context id that a
    request carries was returned, under the key 'context_id', by the
    response of an earlier request of the same conversation. *)
Theorem context_ids_come_from_responses `{Network W}
    (url : string) (qs : list Question) (w : W) :
  ∃ qa_pairs evs w',
    _ask_questions url qs w = (Ok qa_pairs, evs, w')
    ∧ ∀ (i : nat) m u tok o,
        evs !! i = Some (EvSend m u (Some tok) o) →
        ∃ (j : nat) m' u' c' r,
          (j < i)%nat ∧ evs !! j = Some (EvSend m' u' c' (SendReturn r))
          ∧ context_id r = Some (Some tok).
Proof.
  destruct (ask_questions_asked url qs w) as (qa_pairs & evs & w' & Hrun & Ha).
  exists qa_pairs, evs, w'. split; [done|].
  intros i m u tok o Hev.
  by destruct (Asked_token_source _ _ _ _ _ _ _ _ _ _ Ha Hev) as [?|?].
Qed.

Lemma context_ids_come_from_responses_witness :
  ∃ qa_pairs evs w',
    _ask_questions "http://white:8001" three_questions second_turn_fails
    = (Ok qa_pairs, evs, w')
    ∧ ∃ (j : nat) m u c r,
        (j < 2)%nat ∧ evs !! j = Some (EvSend m u c (SendReturn r))
        ∧ context_id r = Some (Some "c1").
Proof.
  destruct (context_ids_come_from_responses
              "http://white:8001" three_questions second_turn_fails)
    as (qa_pairs & evs & w' & Hrun & Hsrc).
  exists qa_pairs, evs, w'. split; [exact Hrun|].
  vm_compute in Hrun. injection Hrun as <- <- <-.
  exact (Hsrc 2%nat _ _ _ _ eq_refl).
Defined.

(** ** The events of a conversation are requests only *)

Lemma Asked_sends url ctx qs evs qas :
  Asked url ctx qs evs qas →
  List.filter is_send evs = evs
  ∧ List.filter is_artifact evs = []
  ∧ List.filter is_failed evs = [].
Proof.
  induction 1 as [|ctx q o qs evs qas _ (IH1 & IH2 & IH3)]; [done|].
  cbn. by rewrite IH1, IH2, IH3.
Qed.

Lemma Asked_nil_inv url ctx evs qas :
  Asked url ctx [] evs qas → evs = [] ∧ qas = [].
Proof. by inversion 1. Qed.

(** ** When a run succeeds *)

Section RunOutcome.
Context `{Network W}.
Implicit Types (req : EvalRequest) (url : string) (w : W).

(** The persona that the discovery step makes of a reply. *)
Lemma discovered_persona url w o w0 :
  net_get (rstrip_slash url +:+ "/profile") w = (o, w0) →
  ∃ persona,
    _get_persona_from_profile url w
    = (Ok persona, [EvGet (rstrip_slash url +:+ "/profile") o], w0)
    ∧ (startswith persona "Error" = false ↔
       ∃ p, o = GetJson (Some p) ∧ startswith p "Error" = false)
    ∧ (∀ p, o = GetJson (Some p) → persona = p).
Proof.
  intros Hget. pose proof (get_persona_run url w) as Hp.
  cbn zeta in Hp. rewrite Hget in Hp. eexists. split; [exact Hp|].
  destruct o as [| |[p|]]; cbn [default].
  - split; [split; [done | by intros (p' & [=] & _)] | by intros p' [=]].
  - split; [split; [done | by intros (p' & [=] & _)] | by intros p' [=]].
  - split; [split | by intros p' [= ->]].
    + intros Hne. by exists p.
    + by intros (p' & [= ->] & Hne).
  - split; [split; [done | by intros (p' & [=] & _)] | by intros p' [=]].
Qed.

Lemma run_eval_success_shape req url w persona evs0 w0 :
  participants req !! "agent" = Some url →
  _get_persona_from_profile url w = (Ok persona, evs0, w0) →
  List.filter is_send evs0 = [] → List.filter is_artifact evs0 = [] →
  List.filter is_failed evs0 = [] →
  startswith persona "Error" = false →
  ∃ qs qa_pairs evs_ask w1 evs,
    _generate_questions persona (requested req)
                        (default "general" (cfg_domain (config req))) = Some qs
    ∧ _ask_questions url qs w0 = (Ok qa_pairs, evs_ask, w1)
    ∧ Asked url None qs evs_ask qa_pairs
    ∧ run_eval req w
      = (Ok (),
         evs ++ [EvArtifact {| rd_persona := persona;
                               rd_persona_score := mean_of_means qa_pairs;
                               rd_per_task_scores := category_means qa_pairs;
                               rd_num_questions := Z.of_nat (length qs) |}],
         w1)
    ∧ List.filter is_send evs = evs_ask
    ∧ List.filter is_artifact evs = []
    ∧ List.filter is_failed evs = []
    ∧ head evs = Some (EvStatus ("Starting PersonaGym evaluation of agent at " +:+ url)).
Proof.
  intros Hurl Hp Hs0 Ha0 Hf0 Hne.
  destruct (run_eval_proceeds req url w persona evs0 w0 Hurl Hp Hne)
    as (qs & qa_pairs & evs_ask & w1 & scores & Hqs & Hask & Hscore & Hrun).
  destruct (ask_questions_asked url qs w0) as (qa' & evs' & w1' & Hask' & Ha).
  rewrite Hask in Hask'. injection Hask' as <- <- <-.
  rewrite score_answers_eq in Hscore. injection Hscore as <-.
  destruct (Asked_sends _ _ _ _ _ Ha) as (Hs & Hart & Hfl).
  exists qs, qa_pairs, evs_ask, w1,
    ([EvStatus ("Starting PersonaGym evaluation of agent at " +:+ url);
      EvStatus "Fetching persona from white agent..."]
     ++ evs0
     ++ [EvStatus ("Persona: " +:+ slice_to 100 persona +:+ "...");
         EvStatus "Generating evaluation questions...";
         EvStatus ("Asking " +:+ pretty (length qs) +:+ " questions...")]
     ++ evs_ask ++ [EvStatus "Scoring answers..."]).
  split; [exact Hqs|]. split; [exact Hask|]. split; [exact Ha|]. split.
  { rewrite Hrun. cbn [overall_score per_task_scores].
    by rewrite <- !app_assoc. }
  rewrite !List.filter_app, Hs0, Ha0, Hf0, Hs, Hart, Hfl. cbn.
  by rewrite app_nil_r.
Qed.
End RunOutcome.

Section RunProperties.
Context `{Network W}.
Implicit Types (req : EvalRequest) (url : string) (w : W).

Lemma run_eval_success req url w p w0 :
  participants req !! "agent" = Some url →
  net_get (rstrip_slash url +:+ "/profile") w = (GetJson (Some p), w0) →
  startswith p "Error" = false →
  ∃ qs qa_pairs evs_ask w1 evs,
    _generate_questions p (requested req)
                        (default "general" (cfg_domain (config req))) = Some qs
    ∧ _ask_questions url qs w0 = (Ok qa_pairs, evs_ask, w1)
    ∧ Asked url None qs evs_ask qa_pairs
    ∧ run_eval req w
      = (Ok (),
         evs ++ [EvArtifact {| rd_persona := p;
                               rd_persona_score := mean_of_means qa_pairs;
                               rd_per_task_scores := category_means qa_pairs;
                               rd_num_questions := Z.of_nat (length qs) |}],
         w1)
    ∧ List.filter is_send evs = evs_ask
    ∧ List.filter is_artifact evs = []
    ∧ List.filter is_failed evs = []
    ∧ head evs = Some (EvStatus ("Starting PersonaGym evaluation of agent at " +:+ url)).
Proof.
  intros Hurl Hget Hne.
  destruct (discovered_persona url w _ w0 Hget) as (persona & Hp & _ & Hsame).
  rewrite (Hsame p eq_refl) in Hp.
  by apply (run_eval_success_shape req url w p _ w0 Hurl Hp).
Qed.

End RunProperties.

(** X4: once the request names an agent, a run ends in exactly one of
    two ways.  It returns, after a single artifact that is its last
    event and without any failure report, exactly when the profile is a
    JSON object whose persona description does not begin with "Error";
    otherwise it raises, without any artifact and without having sent a
    question.  When the call that logs the error returns, as it does
    for every persona without braces, the run raises the cause "Failed
    to get persona: ..." after a failure report that is its last event
    and that carries the cause; when that call raises, the run raises
    its exception and reports no failure. *)
Theorem run_eval_succeeds_iff `{Network W}
    (req : EvalRequest) (url : string) (w w0 : W) (o : ProfileOutcome) :
  participants req !! "agent" = Some url →
  net_get (rstrip_slash url +:+ "/profile") w = (o, w0) →
  ((run_eval req w).1.1 = Ok ()
   ↔ ∃ p, o = GetJson (Some p) ∧ startswith p "Error" = false)
  ∧ ((run_eval req w).1.1 = Ok () →
     ∃ evs data w1,
       run_eval req w = (Ok (), evs ++ [EvArtifact data], w1)
       ∧ (∀ p, o = GetJson (Some p) → rd_persona data = p)
       ∧ List.filter is_artifact evs = []
       ∧ List.filter is_failed evs = [])
  ∧ ((run_eval req w).1.1 ≠ Ok () →
     ∃ persona e evs reported,
       _get_persona_from_profile url w
       = (Ok persona, [EvGet (rstrip_slash url +:+ "/profile") o], w0)
       ∧ startswith persona "Error" = true
       ∧ run_eval req w = (Exn e, evs ++ reported, w0)
       ∧ List.filter is_artifact evs = []
       ∧ List.filter is_failed evs = []
       ∧ List.filter is_send evs = []
       ∧ match format_raises ("Evaluation failed: Failed to get persona: " +:+ persona) with
         | None => e = "Failed to get persona: " +:+ persona
                   ∧ reported = [EvFailed ("Evaluation failed: " +:+ e)]
         | Some e' => e = e' ∧ reported = []
         end
       ∧ (has_brace persona = false →
          format_raises ("Evaluation failed: Failed to get persona: " +:+ persona) = None)).
Proof.
  intros Hurl Hget.
  destruct (discovered_persona url w o w0 Hget) as (persona & Hp & Hiff & Hsame).
  destruct (decide (startswith persona "Error" = true)) as [He|He].
  - pose proof (run_eval_abort_cases req url w _ _ _ Hurl Hp He) as Hrun.
    split; [|split].
    + split.
      * rewrite Hrun. by destruct (format_raises _).
      * intros Hp'. apply Hiff in Hp'. congruence.
    + rewrite Hrun. by destruct (format_raises _).
    + intros _.
      exists persona,
        (match format_raises ("Evaluation failed: Failed to get persona: " +:+ persona) with
         | None => "Failed to get persona: " +:+ persona
         | Some e' => e'
         end),
        [EvStatus ("Starting PersonaGym evaluation of agent at " +:+ url);
         EvStatus "Fetching persona from white agent...";
         EvGet (rstrip_slash url +:+ "/profile") o],
        (match format_raises ("Evaluation failed: Failed to get persona: " +:+ persona) with
         | None => [EvFailed ("Evaluation failed: Failed to get persona: " +:+ persona)]
         | Some _ => []
         end).
      split; [exact Hp|]. split; [exact He|]. split.
      { rewrite Hrun. destruct (format_raises _); [by rewrite app_nil_r | done]. }
      split; [done|]. split; [done|]. split; [done|]. split.
      { by destruct (format_raises _). }
      apply abort_message_no_brace.
  - apply not_true_is_false in He. apply Hiff in He as (p & -> & Hne).
    destruct (run_eval_success req url w p w0 Hurl Hget Hne)
      as (qs & qa_pairs & evs_ask & w1 & evs & _ & _ & _ & Hrun & _ & Hart & Hfl & _).
    rewrite Hrun. cbn [fst]. split; [|split].
    + split; [by exists p | done].
    + intros _. eexists evs, _, w1. split; [reflexivity|].
      split; [by intros p' [= ->] | done].
    + done.
Qed.

Lemma run_eval_succeeds_iff_witness :
  (run_eval (request_for "http://white:8001/" 3) second_turn_fails).1.1 = Ok ()
  ∧ (∃ evs,
      run_eval (request_for "http://white:8001/" 3) no_description
      = (Exn "Failed to get persona: Error: Persona description not found.",
         evs ++ [EvFailed "Evaluation failed: Failed to get persona: Error: Persona description not found."],
         no_description)
      ∧ List.filter is_send evs = [])
  ∧ (∃ evs,
      run_eval (request_for "http://white:8001/" 3) braced_marker
      = (Exn "'x'", evs, braced_marker)
      ∧ List.filter is_failed evs = []).
Proof.
  split; [|split].
  - apply (proj1 (@run_eval_succeeds_iff Script scripted
                    (request_for "http://white:8001/" 3) "http://white:8001/"
                    second_turn_fails second_turn_fails _ eq_refl eq_refl)).
    exists "A baker". split; reflexivity.
  - destruct (proj2 (proj2 (@run_eval_succeeds_iff Script scripted
                    (request_for "http://white:8001/" 3) "http://white:8001/"
                    no_description no_description _ eq_refl eq_refl)))
      as (persona & e & evs & reported & Hp & _ & Hrun & _ & _ & Hsend & Hlog & _);
      [discriminate|].
    injection Hp as <-. vm_compute in Hlog. destruct Hlog as [-> ->].
    exists evs. split; [exact Hrun | exact Hsend].
  - destruct (proj2 (proj2 (@run_eval_succeeds_iff Script scripted
                    (request_for "http://white:8001/" 3) "http://white:8001/"
                    braced_marker braced_marker _ eq_refl eq_refl)))
      as (persona & e & evs & reported & Hp & _ & Hrun & _ & Hfl & _ & Hlog & _);
      [discriminate|].
    injection Hp as <-. vm_compute in Hlog. destruct Hlog as [-> ->].
    exists evs. split; [by rewrite app_nil_r in Hrun | exact Hfl].
Defined.

(** ** Discovery failures that are reported *)

Lemma has_brace_app (s t : string) :
  has_brace (s +:+ t) = has_brace s || has_brace t.
Proof.
  induction s as [|c s IH]; [done|].
  change (String c s +:+ t) with (String c (s +:+ t)).
  cbn [has_brace]. by rewrite IH, orb_assoc.
Qed.

Lemma has_brace_rstrip_slash (s : string) :
  has_brace s = false → has_brace (rstrip_slash s) = false.
Proof.
  induction s as [|c s IH]; [done|].
  cbn [has_brace rstrip_slash]. intros [Hc Hs]%orb_false_elim.
  destruct (Ascii.eqb c "/" && String.eqb (rstrip_slash s) ""); [done|].
  cbn [has_brace]. by rewrite Hc, IH.
Qed.

(** X18: when the error marker has no brace in it, as after every
    failure of the discovery step at an address without braces,
    [run_eval] reports the failure with a cause that names the persona
    step and raises that cause; it adds no artifact, sends no question
    and reaches neither the generation nor the scoring step. *)
Theorem plain_discovery_failure_aborts_run `{Network W}
    (req : EvalRequest) (url : string) (w : W) :
  participants req !! "agent" = Some url →
  ∃ persona o w0,
    net_get (rstrip_slash url +:+ "/profile") w = (o, w0)
    ∧ _get_persona_from_profile url w
      = (Ok persona, [EvGet (rstrip_slash url +:+ "/profile") o], w0)
    ∧ ((o = GetRequestError ∨ o = GetOtherError ∨ o = GetJson None) →
       startswith persona "Error" = true
       ∧ (has_brace url = false → has_brace persona = false))
    ∧ (startswith persona "Error" = true → has_brace persona = false →
       ∃ evs,
         run_eval req w = (Exn ("Failed to get persona: " +:+ persona), evs, w0)
         ∧ evs = [EvStatus ("Starting PersonaGym evaluation of agent at " +:+ url);
                  EvStatus "Fetching persona from white agent...";
                  EvGet (rstrip_slash url +:+ "/profile") o;
                  EvFailed ("Evaluation failed: Failed to get persona: " +:+ persona)]
         ∧ (∀ data, EvArtifact data ∉ evs)
         ∧ (∀ m u c o', EvSend m u c o' ∉ evs)
         ∧ (EvStatus "Generating evaluation questions..." ∉ evs)
         ∧ (EvStatus "Scoring answers..." ∉ evs)).
Proof.
  intros Hurl.
  destruct (net_get (rstrip_slash url +:+ "/profile") w) as [o w0] eqn:Hget.
  pose proof (get_persona_run url w) as Hp. cbn zeta in Hp. rewrite Hget in Hp.
  eexists _, o, w0. split; [done|]. split; [exact Hp|]. split.
  - intros Ho. split.
    + eapply failed_discovery_marked; [exact Hp| |exact Ho]. by rewrite Hget.
    + intros Hb. destruct Ho as [-> | [-> | ->]]; [|done|done].
      change (has_brace ("Error: Failed to connect to White Agent at "
                         +:+ (rstrip_slash url +:+ "/profile")) = false).
      by rewrite !has_brace_app, (has_brace_rstrip_slash url Hb).
  - intros Herr Hb. eexists. split; [|split; [reflexivity|]].
    + rewrite (run_eval_aborts req url w _ _ _ Hurl Hp Herr
                 (abort_message_no_brace _ Hb)).
      reflexivity.
    + split; [intros data; not_in_events|].
      split; [intros m u c o'; not_in_events|]. split; not_in_events.
Qed.

Lemma plain_discovery_failure_aborts_run_witness :
  ∃ evs w0,
    run_eval (request_for "http://white:8001/" 4) unreachable
    = (Exn "Failed to get persona: Error: Failed to connect to White Agent at http://white:8001/profile",
       evs, w0)
    ∧ last evs
      = Some (EvFailed "Evaluation failed: Failed to get persona: Error: Failed to connect to White Agent at http://white:8001/profile")
    ∧ EvStatus "Generating evaluation questions..." ∉ evs.
Proof.
  destruct (plain_discovery_failure_aborts_run
              (request_for "http://white:8001/" 4) "http://white:8001/" unreachable
              eq_refl)
    as (persona & o & w0 & Hget & Hp & Hfail & Habort).
  injection Hget as <- <-.
  destruct (Hfail (or_introl eq_refl)) as [Herr Hb].
  destruct (Habort Herr (Hb eq_refl)) as (evs & Hrun & Hevs & _ & _ & Hgen & _).
  injection Hp as <-.
  exists evs, unreachable. split; [exact Hrun|]. split; [|exact Hgen].
  rewrite Hevs. reflexivity.
Defined.

(** ** How many questions a run asks *)

(** X5: a run that gets past the discovery step sends as many questions
    as the request asks for, at least none and at most five, and
    reports that number; a request without 'num_questions' gets four;
    for a number that is not positive nothing is sent, and the report
    has the overall score 0.0 and no category. *)
Theorem run_eval_question_count `{Network W}
    (req : EvalRequest) (url : string) (w w0 : W) (p : string) :
  participants req !! "agent" = Some url →
  net_get (rstrip_slash url +:+ "/profile") w = (GetJson (Some p), w0) →
  startswith p "Error" = false →
  ∃ evs data w1,
    run_eval req w = (Ok (), evs ++ [EvArtifact data], w1)
    ∧ rd_num_questions data = Z.max 0 (Z.min (requested req) 5)
    ∧ Z.of_nat (length (List.filter is_send evs)) = rd_num_questions data
    ∧ (cfg_num_questions (config req) = None → rd_num_questions data = 4)
    ∧ (requested req ≤ 0 →
       List.filter is_send evs = []
       ∧ rd_persona_score data = float_of_int 0
       ∧ rd_per_task_scores data = []).
Proof.
  intros Hurl Hget Hne.
  destruct (run_eval_success req url w p w0 Hurl Hget Hne)
    as (qs & qa_pairs & evs_ask & w1 & evs & Hqs & _ & Ha & Hrun & Hs & _).
  destruct (generate_questions_total p (requested req)
              (default "general" (cfg_domain (config req)))) as (qs' & Hqs' & Hlen).
  rewrite Hqs in Hqs'. injection Hqs' as <-.
  destruct (Asked_length _ _ _ _ _ Ha) as [Hl1 Hl2].
  eexists evs, _, w1. split; [exact Hrun|]. cbn [rd_num_questions
    rd_persona_score rd_per_task_scores].
  split; [lia|]. split; [rewrite Hs; lia|]. split.
  - unfold requested in *. intros Hnone. rewrite Hnone in Hlen. cbn in Hlen. lia.
  - intros Hle. assert (qs = []) as -> by (apply nil_length_inv; lia).
    apply Asked_nil_inv in Ha as [-> ->]. by rewrite Hs.
Qed.

Lemma run_eval_question_count_witness :
  ∃ evs data w1,
    run_eval (request_without_config "http://white:8001/") second_turn_fails
    = (Ok (), evs ++ [EvArtifact data], w1)
    ∧ rd_num_questions data = 4
    ∧ length (List.filter is_send evs) = 4%nat.
Proof.
  destruct (@run_eval_question_count Script scripted
              (request_without_config "http://white:8001/")
              "http://white:8001/" second_turn_fails second_turn_fails "A baker"
              eq_refl eq_refl eq_refl)
    as (evs & data & w1 & Hrun & _ & Hcount & Hdefault & _).
  exists evs, data, w1. split; [exact Hrun|].
  specialize (Hdefault eq_refl). split; [exact Hdefault|]. lia.
Defined.

(** ** One category per question *)

Lemma generate_questions_tasks (persona : string) (n : Z) (domain : string)
    (qs : list Question) :
  _generate_questions persona n domain = Some qs →
  q_task <$> qs = take (length qs) DEFAULT_TASKS ∧ (length qs ≤ 5)%nat.
Proof.
  unfold _generate_questions.
  change (Z.of_nat (length question_templates)) with 5.
  generalize (range (Z.min n 5)) (range_min_cases n). intros l Hl.
  rewrite !elem_of_cons in Hl.
  destruct Hl as [-> | [-> | [-> | [-> | [-> | [-> | Hl]]]]]];
    [| | | | | | by apply elem_of_nil in Hl];
    intros [= <-]; split; try reflexivity; cbn; lia.
Qed.

Lemma NoDup_DEFAULT_TASKS_take (k : nat) : NoDup (take k DEFAULT_TASKS).
Proof.
  apply (sublist_NoDup _ DEFAULT_TASKS); [|apply sublist_take].
  apply (bool_decide_unpack _). by vm_compute.
Qed.

Lemma filter_ne_absent (a : string) (l : list string) :
  a ∉ l → filter (λ u, u ≠ a) l = l.
Proof.
  induction l as [|b l IH]; [done|].
  rewrite not_elem_of_cons. intros [Hne Hl].
  rewrite filter_cons_True by done. by rewrite IH.
Qed.

Lemma first_seen_NoDup (l : list string) : NoDup l → first_seen l = l.
Proof.
  induction 1 as [|a l Ha _ IH]; [done|].
  cbn [first_seen]. rewrite IH. by rewrite filter_ne_absent.
Qed.

(** With one turn per category, a category's scores are its turn's score. *)
Lemma scores_of_single (l : list QA) (i : nat) (qa : QA) :
  NoDup (qa_task <$> l) → l !! i = Some qa →
  scores_of (qa_task qa) l = [turn_score (qa_answer qa)].
Proof.
  revert i. induction l as [|x l IH]; intros i Hnd Hi; [done|].
  rewrite fmap_cons in Hnd. apply NoDup_cons in Hnd as [Hx Hnd].
  destruct i as [|i]; cbn [lookup list_lookup] in Hi.
  - injection Hi as ->. unfold scores_of. rewrite filter_cons_True by done.
    rewrite fmap_cons. f_equal. by apply scores_of_absent.
  - assert (Hne : qa_task x ≠ qa_task qa).
    { intros Heq. apply Hx. rewrite Heq.
      apply list_elem_of_fmap_2. by eapply list_elem_of_lookup_2. }
    unfold scores_of. rewrite filter_cons_False by done. by apply (IH i).
Qed.

Lemma category_means_single (l : list QA) (i : nat) (qa : QA) :
  NoDup (qa_task <$> l) → l !! i = Some qa →
  dict_get (qa_task qa) (category_means l) = Some (mean [turn_score (qa_answer qa)]).
Proof.
  intros Hnd Hi. unfold category_means. rewrite dict_get_tabulate.
  rewrite decide_True.
  - by rewrite (scores_of_single l i qa).
  - apply elem_of_first_seen, list_elem_of_fmap_2. by eapply list_elem_of_lookup_2.
Qed.

(** What a conversation over generated questions leaves for the scorer. *)
Lemma pipeline_tasks (persona : string) (n : Z) (domain url : string)
    (qs : list Question) (evs : list Event) (qas : list QA) :
  _generate_questions persona n domain = Some qs →
  Asked url None qs evs qas →
  qa_task <$> qas = take (length qs) DEFAULT_TASKS
  ∧ NoDup (qa_task <$> qas)
  ∧ keys (category_means qas) = take (length qs) DEFAULT_TASKS.
Proof.
  intros Hqs Ha.
  destruct (generate_questions_tasks _ _ _ _ Hqs) as [Ht _].
  destruct (Asked_tasks _ _ _ _ _ Ha) as [Hqa _].
  assert (Htasks : qa_task <$> qas = take (length qs) DEFAULT_TASKS) by congruence.
  assert (Hnd : NoDup (qa_task <$> qas))
    by (rewrite Htasks; apply NoDup_DEFAULT_TASKS_take).
  split; [done|]. split; [done|].
  unfold category_means. by rewrite keys_tabulate, first_seen_NoDup.
Qed.

(** X6: the report of a run has one category per question that was
    sent, the first categories of [DEFAULT_TASKS] in order; the score of
    the category at index [i] is the mean of the single score of the
    turn at index [i], and it is 0.0 when that exchange raised. *)
Theorem report_has_one_category_per_question `{Network W}
    (req : EvalRequest) (url : string) (w w0 : W) (p : string) :
  participants req !! "agent" = Some url →
  net_get (rstrip_slash url +:+ "/profile") w = (GetJson (Some p), w0) →
  startswith p "Error" = false →
  ∃ evs data w1,
    run_eval req w = (Ok (), evs ++ [EvArtifact data], w1)
    ∧ keys (rd_per_task_scores data)
      = take (Z.to_nat (rd_num_questions data)) DEFAULT_TASKS
    ∧ ∀ (i : nat) task m u c o,
        DEFAULT_TASKS !! i = Some task →
        List.filter is_send evs !! i = Some (EvSend m u c o) →
        (∀ cause, o = SendRaise cause →
           dict_get task (rd_per_task_scores data) = Some (float_of_int 0))
        ∧ (∀ r, o = SendReturn r →
             dict_get task (rd_per_task_scores data)
             = Some (mean [turn_score (default "Error: No response" (response r))])).
Proof.
  intros Hurl Hget Hne.
  destruct (run_eval_success req url w p w0 Hurl Hget Hne)
    as (qs & qa_pairs & evs_ask & w1 & evs & Hqs & _ & Ha & Hrun & Hs & _).
  destruct (pipeline_tasks _ _ _ _ _ _ _ Hqs Ha) as (Htasks & Hnd & Hkeys).
  eexists evs, _, w1. split; [exact Hrun|].
  cbn [rd_per_task_scores rd_num_questions]. rewrite Nat2Z.id.
  split; [exact Hkeys|].
  intros i task m u c o Htask Hev. rewrite Hs in Hev.
  destruct (Asked_events _ _ _ _ _ _ _ Ha Hev) as (q & c' & o' & Hq & Heq).
  destruct (Asked_lookup _ _ _ _ _ _ _ Ha Hq) as (c'' & o'' & Hev' & Hqa).
  rewrite Hev in Hev'. injection Hev' as _ _ <- <-.
  assert (Hqt : q_task q = task).
  { assert (Hl : (qa_task <$> qa_pairs) !! i = Some (q_task q))
      by (by rewrite list_lookup_fmap, Hqa).
    rewrite Htasks in Hl. apply lookup_take_Some in Hl as [Hl _]. congruence. }
  pose proof (category_means_single qa_pairs i _ Hnd Hqa) as Hget'.
  cbn [qa_task qa_answer] in Hget'. rewrite Hqt in Hget'.
  split.
  - intros cause ->. rewrite Hget'. reflexivity.
  - intros r ->. rewrite Hget'. reflexivity.
Qed.

Lemma report_has_one_category_per_question_witness :
  ∃ evs data w1,
    run_eval (request_for "http://white:8001/" 3) second_turn_fails
    = (Ok (), evs ++ [EvArtifact data], w1)
    ∧ keys (rd_per_task_scores data)
      = take (Z.to_nat (rd_num_questions data)) DEFAULT_TASKS
    ∧ dict_get "Action Justification" (rd_per_task_scores data) = Some (float_of_int 0).
Proof.
  destruct (@report_has_one_category_per_question Script scripted
              (request_for "http://white:8001/" 3) "http://white:8001/"
              second_turn_fails second_turn_fails "A baker" eq_refl eq_refl eq_refl)
    as (evs & data & w1 & Hrun & Hkeys & Hturn).
  exists evs, data, w1. split; [exact Hrun|]. split; [exact Hkeys|].
  assert (Hevs : removelast
                   (run_eval (request_for "http://white:8001/" 3) second_turn_fails).1.2
                 = evs)
    by (rewrite Hrun; apply removelast_last).
  vm_compute in Hevs. subst evs.
  exact (proj1 (Hturn 1%nat _ _ _ _ _ eq_refl eq_refl) _ eq_refl).
Defined.

(** ** A white agent that never answers *)

Lemma ask_loop_outcomes `{Network W} (P : SendOutcome → Prop) (url : string) :
  (∀ m u c w, P (net_send m u c w).1) →
  ∀ qs (st : ContextId * list QA) w r evs w',
    ask_loop url qs st w = (r, evs, w') →
    Forall (λ ev, ∀ o, outcome_of ev = Some o → P o) evs.
Proof.
  intros HP. induction qs as [|q qs IH]; intros st w r evs w' Hrun.
  - injection Hrun as _ <- _. constructor.
  - cbn [ask_loop] in Hrun. unfold mbind, Eff_bind in Hrun.
    rewrite ask_question_run in Hrun.
    pose proof (HP (q_question q) url st.1 w) as Ho.
    destruct (net_send (q_question q) url st.1 w) as [o w1]. cbn [fst] in Ho.
    destruct (ask_loop url qs _ w1) as [[r1 evs1] w2] eqn:Hrest.
    injection Hrun as _ <- _. constructor.
    + by intros o' [= <-].
    + by apply (IH _ _ _ _ _ Hrest).
Qed.

Lemma Asked_answers_of url ctx qs evs qas (P : SendOutcome → Prop) (qa : QA) :
  Asked url ctx qs evs qas →
  Forall (λ ev, ∀ o, outcome_of ev = Some o → P o) evs →
  qa ∈ qas → ∃ o, P o ∧ qa_answer qa = answer_of o.
Proof.
  induction 1 as [|ctx q o qs evs qas _ IH]; intros HP Hin.
  - by apply elem_of_nil in Hin.
  - apply Forall_cons in HP as [Ho HP].
    apply elem_of_cons in Hin as [->|Hin]; [|by apply IH].
    exists o. split; [by apply Ho | done].
Qed.

Lemma zero_scores (qas : list QA) :
  NoDup (qa_task <$> qas) → (length qas ≤ 5)%nat →
  (∀ qa, qa ∈ qas → turn_score (qa_answer qa) = float_of_int 0) →
  category_means qas = tabulate (λ _, float_of_int 0) (qa_task <$> qas)
  ∧ mean_of_means qas = float_of_int 0.
Proof.
  intros Hnd Hlen Hzero.
  assert (Hcm : category_means qas
                = tabulate (λ _, float_of_int 0) (qa_task <$> qas)).
  { unfold category_means. rewrite first_seen_NoDup by done.
    apply tabulate_ext. intros t Ht.
    apply list_elem_of_fmap in Ht as (qa & -> & Hqa).
    destruct (list_elem_of_lookup_1 _ _ Hqa) as [i Hi].
    rewrite (scores_of_single qas i qa Hnd Hi), (Hzero qa Hqa). reflexivity. }
  split; [exact Hcm|]. unfold mean_of_means. rewrite Hcm. clear -Hlen.
  do 6 (destruct qas as [|? qas]; [reflexivity|]). cbn in Hlen. lia.
Qed.

(** X10: when every exchange with the white agent raises, a run that
    got past the discovery step still returns; its report gives every
    category the score 0.0 and the overall score 0.0. *)
Theorem silent_agent_scores_zero `{Network W}
    (req : EvalRequest) (url : string) (w w0 : W) (p : string) :
  participants req !! "agent" = Some url →
  net_get (rstrip_slash url +:+ "/profile") w = (GetJson (Some p), w0) →
  startswith p "Error" = false →
  (∀ m u c w1, ∃ cause, (net_send m u c w1).1 = SendRaise cause) →
  ∃ evs data w1,
    run_eval req w = (Ok (), evs ++ [EvArtifact data], w1)
    ∧ rd_persona_score data = float_of_int 0
    ∧ ∀ task v, (task, v) ∈ rd_per_task_scores data → v = float_of_int 0.
Proof.
  intros Hurl Hget Hne Hraise.
  destruct (run_eval_success req url w p w0 Hurl Hget Hne)
    as (qs & qa_pairs & evs_ask & w1 & evs & Hqs & Hask & Ha & Hrun & _).
  destruct (pipeline_tasks _ _ _ _ _ _ _ Hqs Ha) as (_ & Hnd & _).
  destruct (generate_questions_tasks _ _ _ _ Hqs) as [_ Hlen].
  destruct (Asked_length _ _ _ _ _ Ha) as [_ Hl].
  pose proof (ask_loop_outcomes (λ o, ∃ cause, o = SendRaise cause) url Hraise
                _ _ _ _ _ _ Hask) as Hall.
  destruct (zero_scores qa_pairs Hnd ltac:(lia)) as [Hcm Hmm].
  { intros qa Hqa.
    destruct (Asked_answers_of _ _ _ _ _ _ qa Ha Hall Hqa) as (o & [cause ->] & ->).
    reflexivity. }
  eexists evs, _, w1. split; [exact Hrun|].
  cbn [rd_persona_score rd_per_task_scores]. split; [exact Hmm|].
  intros task v. rewrite Hcm. unfold tabulate.
  by intros (t & [= _ ->] & _)%list_elem_of_fmap.
Qed.

Lemma silent_agent_scores_zero_witness :
  ∃ evs data w1,
    run_eval (request_for "http://white:8001/" 4) (SilentAgent "A baker")
    = (Ok (), evs ++ [EvArtifact data], w1)
    ∧ rd_persona_score data = float_of_int 0.
Proof.
  destruct (@silent_agent_scores_zero Silent silent
              (request_for "http://white:8001/" 4) "http://white:8001/"
              (SilentAgent "A baker") (SilentAgent "A baker") "A baker"
              eq_refl eq_refl eq_refl)
    as (evs & data & w1 & Hrun & Hzero & _).
  - intros m u c w1. exists "timed out". reflexivity.
  - exists evs, data, w1. split; [exact Hrun | exact Hzero].
Defined.

(** ** The persona does not reach the questions or the scores *)

(** X9: two runs whose discovery steps find different personas, neither
    an error marker, and leave the white agent in the same state send
    the same requests and report the same scores and the same number of
    questions: the persona reaches the report only as its 'persona'
    field. *)
Theorem scores_do_not_depend_on_persona `{Network W}
    (req : EvalRequest) (url : string) (w w' w0 : W) (p p' : string) :
  participants req !! "agent" = Some url →
  net_get (rstrip_slash url +:+ "/profile") w = (GetJson (Some p), w0) →
  net_get (rstrip_slash url +:+ "/profile") w' = (GetJson (Some p'), w0) →
  startswith p "Error" = false → startswith p' "Error" = false →
  ∃ evs evs' data data' w1,
    run_eval req w = (Ok (), evs ++ [EvArtifact data], w1)
    ∧ run_eval req w' = (Ok (), evs' ++ [EvArtifact data'], w1)
    ∧ List.filter is_send evs = List.filter is_send evs'
    ∧ rd_persona data = p ∧ rd_persona data' = p'
    ∧ rd_persona_score data = rd_persona_score data'
    ∧ rd_per_task_scores data = rd_per_task_scores data'
    ∧ rd_num_questions data = rd_num_questions data'.
Proof.
  intros Hurl Hget Hget' Hne Hne'.
  destruct (run_eval_success req url w p w0 Hurl Hget Hne)
    as (qs & qa_pairs & evs_ask & w1 & evs & Hqs & Hask & _ & Hrun & Hs & _).
  destruct (run_eval_success req url w' p' w0 Hurl Hget' Hne')
    as (qs' & qa_pairs' & evs_ask' & w1' & evs' & Hqs' & Hask' & _ & Hrun' & Hs' & _).
  change (_generate_questions p' (requested req)
            (default "general" (cfg_domain (config req))))
    with (_generate_questions p (requested req)
            (default "general" (cfg_domain (config req)))) in Hqs'.
  rewrite Hqs in Hqs'. injection Hqs' as <-.
  rewrite Hask in Hask'. injection Hask' as <- <- <-.
  eexists evs, evs', _, _, w1. split; [exact Hrun|]. split; [exact Hrun'|].
  split; [congruence|]. done.
Qed.

Lemma scores_do_not_depend_on_persona_witness :
  ∃ evs evs' data data' w1,
    run_eval (request_for "http://white:8001/" 2)
             (ForgetfulAgent (GetJson (Some "A baker")) [reply "Hello." "c1"])
    = (Ok (), evs ++ [EvArtifact data], w1)
    ∧ run_eval (request_for "http://white:8001/" 2)
               (ForgetfulAgent (GetJson (Some "A pilot")) [reply "Hello." "c1"])
      = (Ok (), evs' ++ [EvArtifact data'], w1)
    ∧ List.filter is_send evs = List.filter is_send evs'
    ∧ rd_persona data = "A baker" ∧ rd_persona data' = "A pilot"
    ∧ rd_persona_score data = rd_persona_score data'
    ∧ rd_per_task_scores data = rd_per_task_scores data'
    ∧ rd_num_questions data = rd_num_questions data'.
Proof.
  exact (@scores_do_not_depend_on_persona Forgetful forgetful
           (request_for "http://white:8001/" 2) "http://white:8001/"
           (ForgetfulAgent (GetJson (Some "A baker")) [reply "Hello." "c1"])
           (ForgetfulAgent (GetJson (Some "A pilot")) [reply "Hello." "c1"])
           (ForgetfulAgent GetOtherError [reply "Hello." "c1"])
           "A baker" "A pilot" eq_refl eq_refl eq_refl eq_refl eq_refl).
Defined.

(** ** Validation is the guard of the participants lookup *)

Lemma validate_request_accepts (req : EvalRequest) :
  (validate_request req).1 = true ↔ is_Some (participants req !! "agent").
Proof.
  unfold validate_request. destruct (participants req !! "agent") as [url|] eqn:Hp.
  - rewrite (missing_roles_with_agent req) by (by rewrite Hp).
    rewrite bool_decide_eq_false_2 by (by intros []). by split.
  - rewrite (missing_roles_without_agent req Hp).
    rewrite bool_decide_eq_true_2.
    + split; [done | by intros []].
    + intros Heq. apply (not_elem_of_empty (C := gset string) "agent").
      rewrite <- Heq. by apply elem_of_singleton.
Qed.

(** X7: [validate_request] accepts a request exactly when its
    participants have the role "agent".  On a request it rejects,
    [run_eval] raises the [KeyError] of the participants lookup before
    any event, so that no failure is reported to the task updater; on a
    request it accepts, the first event of [run_eval] is the status that
    names the agent's address, so that the lookup has returned; a run
    that then raises with the text of that [KeyError] got it from the
    call that logs a failed discovery. *)
Theorem validation_guards_run_eval `{Network W} (req : EvalRequest) (w : W) :
  ((validate_request req).1 = true ↔ is_Some (participants req !! "agent"))
  ∧ ((validate_request req).1 = false → run_eval req w = (Exn "'agent'", [], w))
  ∧ ((validate_request req).1 = true →
     ∃ url r evs w',
       participants req !! "agent" = Some url
       ∧ run_eval req w
         = (r, EvStatus ("Starting PersonaGym evaluation of agent at " +:+ url) :: evs, w')
       ∧ (r = Exn "'agent'" →
          ∃ persona,
            (_get_persona_from_profile url w).1.1 = Ok persona
            ∧ startswith persona "Error" = true
            ∧ format_raises ("Evaluation failed: Failed to get persona: " +:+ persona)
              = Some "'agent'")).
Proof.
  split; [apply validate_request_accepts|]. split.
  - intros Hv. destruct (participants req !! "agent") as [url|] eqn:Hp.
    + assert ((validate_request req).1 = true)
        by (apply validate_request_accepts; by rewrite Hp).
      congruence.
    + unfold run_eval. by rewrite Hp.
  - intros [url Hurl]%validate_request_accepts. exists url.
    destruct (net_get (rstrip_slash url +:+ "/profile") w) as [o w0] eqn:Hget.
    destruct (discovered_persona url w o w0 Hget) as (persona & Hp & _ & _).
    destruct (startswith persona "Error") eqn:He.
    + rewrite (run_eval_abort_cases req url w _ _ _ Hurl Hp He), Hp.
      destruct (format_raises _) as [e|] eqn:Hlog.
      * eexists _, _, _. split; [done|]. split; [reflexivity|].
        intros [= ->]. by exists persona.
      * eexists _, _, _. split; [done|]. split; [reflexivity | discriminate].
    + destruct (run_eval_proceeds req url w _ _ _ Hurl Hp He)
        as (qs & qa_pairs & evs_ask & w1 & scores & _ & _ & _ & Hrun).
      rewrite Hrun. eexists _, _, _. split; [done|].
      split; [reflexivity | discriminate].
Qed.

Lemma validation_guards_run_eval_witness :
  run_eval no_participants unreachable = (Exn "'agent'", [], unreachable)
  ∧ (∃ url r evs w',
      participants (request_for "http://white:8001/" 4) !! "agent" = Some url
      ∧ run_eval (request_for "http://white:8001/" 4) unreachable
        = (r, EvStatus ("Starting PersonaGym evaluation of agent at " +:+ url) :: evs, w'))
  ∧ (∃ evs,
      run_eval (request_for "http://white:8001/" 4) braced_agent
      = (Exn "'agent'",
         EvStatus "Starting PersonaGym evaluation of agent at http://white:8001/" :: evs,
         braced_agent)
      ∧ format_raises "Evaluation failed: Failed to get persona: Error: {agent}"
        = Some "'agent'").
Proof.
  split; [|split].
  - apply (proj1 (proj2 (validation_guards_run_eval no_participants unreachable))).
    reflexivity.
  - destruct (proj2 (proj2 (validation_guards_run_eval
                              (request_for "http://white:8001/" 4) unreachable))
                    eq_refl)
      as (url & r & evs & w' & Hurl & Hrun & _).
    exists url, r, evs, w'. split; [exact Hurl | exact Hrun].
  - destruct (proj2 (proj2 (validation_guards_run_eval
                              (request_for "http://white:8001/" 4) braced_agent))
                    eq_refl)
      as (url & r & evs & w' & Hurl & Hrun & Hkey).
    injection Hurl as <-.
    assert (r = Exn "'agent'" ∧ w' = braced_agent) as [-> ->].
    { vm_compute in Hrun. by injection Hrun as <- _ <-. }
    destruct (Hkey eq_refl) as (persona & Hp & _ & Hlog).
    injection Hp as <-.
    exists evs. split; [exact Hrun | exact Hlog].
Defined.

(** ** The address of the profile *)

Lemma append_slash_nonempty (t : string) : t +:+ "/" ≠ "".
Proof. by destruct t. Qed.

Lemma rstrip_slash_snoc (s : string) : rstrip_slash (s +:+ "/") = rstrip_slash s.
Proof.
  induction s as [|c s IH]; [done|].
  change (String c s +:+ "/") with (String c (s +:+ "/")).
  cbn [rstrip_slash]. by rewrite IH.
Qed.

Lemma rstrip_slash_no_trailing (s t : string) : rstrip_slash s ≠ t +:+ "/".
Proof.
  revert t. induction s as [|c s IH]; intros t.
  - intros Heq. by apply (append_slash_nonempty t).
  - cbn [rstrip_slash].
    destruct (Ascii.eqb c "/" && String.eqb (rstrip_slash s) "") eqn:Hc.
    + intros Heq. by apply (append_slash_nonempty t).
    + destruct t as [|c' t]; cbn [String.append].
      * intros [= -> Hr]. rewrite Hr in Hc. done.
      * intros [= _ Hr]. by apply (IH t).
Qed.

Lemma rstrip_slash_unchanged (s : string) :
  (∀ t, s ≠ t +:+ "/") → rstrip_slash s = s.
Proof.
  induction s as [|c s IH]; intros Hs; [done|].
  cbn [rstrip_slash]. rewrite IH.
  - destruct (Ascii.eqb c "/" && String.eqb s "") eqn:Hc; [|done].
    apply andb_prop in Hc as [Hc1 Hc2].
    apply Ascii.eqb_eq in Hc1. apply String.eqb_eq in Hc2. subst.
    by destruct (Hs "").
  - intros t ->. by apply (Hs (String c t)).
Qed.

(** X8: trailing slashes of the agent's address do not matter to the
    discovery step: the address with one more slash gives the same
    request and the same result; the address requested is "/profile"
    after a base that does not end with a slash, and the base is the
    agent's address itself when that does not end with a slash. *)
Theorem profile_address_ignores_trailing_slashes `{Network W} (url : string) (w : W) :
  _get_persona_from_profile (url +:+ "/") w = _get_persona_from_profile url w
  ∧ ∃ base persona o w',
      _get_persona_from_profile url w
      = (Ok persona, [EvGet (base +:+ "/profile") o], w')
      ∧ (∀ t, base ≠ t +:+ "/")
      ∧ base = rstrip_slash url
      ∧ ((∀ t, url ≠ t +:+ "/") ↔ base = url).
Proof.
  split.
  - unfold _get_persona_from_profile. by rewrite rstrip_slash_snoc.
  - destruct (net_get (rstrip_slash url +:+ "/profile") w) as [o w0] eqn:Hget.
    destruct (discovered_persona url w o w0 Hget) as (persona & Hp & _ & _).
    exists (rstrip_slash url), persona, o, w0. split; [exact Hp|].
    split; [apply rstrip_slash_no_trailing|]. split; [done|]. split.
    + apply rstrip_slash_unchanged.
    + intros Heq t. rewrite <- Heq. apply rstrip_slash_no_trailing.
Qed.

Lemma profile_address_ignores_trailing_slashes_witness :
  _get_persona_from_profile "http://white:8001//" second_turn_fails
  = _get_persona_from_profile "http://white:8001" second_turn_fails
  ∧ ∃ persona o w',
      _get_persona_from_profile "http://white:8001" second_turn_fails
      = (Ok persona, [EvGet "http://white:8001/profile" o], w').
Proof.
  split.
  - etrans.
    + exact (proj1 (profile_address_ignores_trailing_slashes
                      "http://white:8001/" second_turn_fails)).
    + exact (proj1 (profile_address_ignores_trailing_slashes
                      "http://white:8001" second_turn_fails)).
  - destruct (proj2 (profile_address_ignores_trailing_slashes
                       "http://white:8001" second_turn_fails))
      as (base & persona & o & w' & Hrun & _ & _ & Hsame).
    assert (Hbase : base = "http://white:8001").
    { apply Hsame. intros t.
      change "http://white:8001" with (rstrip_slash "http://white:8001").
      apply rstrip_slash_no_trailing. }
    rewrite Hbase in Hrun. by exists persona, o, w'.
Defined.

(** ** What the scorer reads *)

Lemma scores_of_pairs (t : string) (l : list QA) :
  scores_of t l
  = (λ x : string * string, turn_score x.2)
      <$> filter (λ x : string * string, x.1 = t)
                 ((λ qa, (qa_task qa, qa_answer qa)) <$> l).
Proof.
  unfold scores_of. induction l as [|qa l IH]; [done|].
  rewrite fmap_cons. destruct (decide (qa_task qa = t)) as [Ht|Ht].
  - rewrite !filter_cons_True by done. rewrite !fmap_cons. by rewrite IH.
  - by rewrite !filter_cons_False by done.
Qed.

Lemma tasks_of_pairs (l : list QA) :
  qa_task <$> l = fst <$> ((λ qa, (qa_task qa, qa_answer qa)) <$> l).
Proof. by rewrite <- list_fmap_compose. Qed.

(** X14: the scores depend on the category and the answer of each
    record only: two lists of records with the same categories and
    answers, in the same order, get the same scores, whatever the
    persona and the text of the questions. *)
Theorem score_answers_reads_task_and_answer
    (persona persona' : string) (l l' : list QA) :
  (λ qa, (qa_task qa, qa_answer qa)) <$> l = (λ qa, (qa_task qa, qa_answer qa)) <$> l' →
  _score_answers persona l = _score_answers persona' l'.
Proof.
  intros Heq. rewrite !score_answers_eq.
  assert (Hcm : category_means l = category_means l').
  { unfold category_means. rewrite !tasks_of_pairs, Heq.
    apply tabulate_ext. intros t _. by rewrite !scores_of_pairs, Heq. }
  unfold mean_of_means. by rewrite Hcm.
Qed.

Lemma score_answers_reads_task_and_answer_witness :
  _score_answers "A baker" example_turns
  = _score_answers "A pilot"
      [ {| qa_task := "A"; qa_question := "Who are you?"; qa_answer := letters 50 |};
        {| qa_task := "B"; qa_question := "Why?"; qa_answer := letters 200 |};
        {| qa_task := "A"; qa_question := ""; qa_answer := letters 250 |} ].
Proof.
  apply score_answers_reads_task_and_answer. reflexivity.
Defined.

(** X15: a turn counts for its own category only: taking one record out
    of the list leaves the score of every other category as it was. *)
Theorem turn_counts_for_its_category_only
    (persona : string) (l1 l2 : list QA) (qa : QA) (t : string) :
  t ≠ qa_task qa →
  ∃ r r',
    _score_answers persona (l1 ++ qa :: l2) = Some r
    ∧ _score_answers persona (l1 ++ l2) = Some r'
    ∧ dict_get t (per_task_scores r) = dict_get t (per_task_scores r').
Proof.
  intros Hne. eexists _, _. split; [apply score_answers_eq|].
  split; [apply score_answers_eq|]. cbn [per_task_scores].
  unfold category_means. rewrite !dict_get_tabulate.
  assert (Hs : scores_of t (l1 ++ qa :: l2) = scores_of t (l1 ++ l2)).
  { unfold scores_of. rewrite !filter_app, filter_cons_False; [done|].
    by intros <-. }
  rewrite Hs.
  assert (Hmem : t ∈ first_seen (qa_task <$> l1 ++ qa :: l2)
                 ↔ t ∈ first_seen (qa_task <$> l1 ++ l2)).
  { rewrite !elem_of_first_seen, !fmap_app, fmap_cons, !elem_of_app, elem_of_cons.
    split; [intros [?|[?|?]] | intros [?|?]]; tauto. }
  destruct (decide (t ∈ first_seen (qa_task <$> l1 ++ qa :: l2))) as [Hin|Hin];
    destruct (decide (t ∈ first_seen (qa_task <$> l1 ++ l2))) as [Hin'|Hin'];
    [done | tauto | tauto | done].
Qed.

Lemma turn_counts_for_its_category_only_witness :
  ∃ r r',
    _score_answers "A baker" example_turns = Some r
    ∧ _score_answers "A baker"
        [ {| qa_task := "A"; qa_question := "q1"; qa_answer := letters 50 |};
          {| qa_task := "A"; qa_question := "q3"; qa_answer := letters 250 |} ] = Some r'
    ∧ dict_get "A" (per_task_scores r) = dict_get "A" (per_task_scores r').
Proof.
  apply (turn_counts_for_its_category_only "A baker"
           [ {| qa_task := "A"; qa_question := "q1"; qa_answer := letters 50 |} ]
           [ {| qa_task := "A"; qa_question := "q3"; qa_answer := letters 250 |} ]
           {| qa_task := "B"; qa_question := "q2"; qa_answer := letters 200 |} "A").
  discriminate.
Defined.

(** * Properties of the white agent *)

Lemma invoke_shape `{Llm W} (persona model question : string) (w : W) :
  ∃ result req o w',
    invoke persona model question w = (result, [AeComplete req o], w')
    ∧ cr_user req = question
    ∧ result ≠ ""
    ∧ result = match o with
               | LlmContent content => str_or content "Error: Empty response from LLM."
               | LlmRaise e => "Error calling OpenAI: " +:+ exc_str e
               end.
Proof.
  unfold invoke.
  set (req := {| cr_model := model; cr_system := _; cr_user := question |}).
  destruct (llm_complete req w) as [o w'].
  eexists _, req, o, w'. split; [reflexivity|]. split; [done|]. split; [|done].
  by destruct o as [e|[[|ch c]|]].
Qed.

(** X11: [WhiteAgent.invoke] makes one completion call, with the
    question as the user message, and always returns a text that is not
    empty: the content of the completion when there is one and it is not
    empty, "Error: Empty response from LLM." when the content is [None]
    or empty, and "Error calling OpenAI: " with the cause when the call
    raised.  A text that does not begin with "Error" is the content of
    the completion. *)
Theorem invoke_always_answers `{Llm W} (persona model question : string) (w : W) :
  ∃ result req o w',
    invoke persona model question w = (result, [AeComplete req o], w')
    ∧ llm_complete req w = (o, w')
    ∧ cr_user req = question ∧ cr_model req = model
    ∧ result ≠ ""
    ∧ (∀ c, o = LlmContent (Some c) → c ≠ "" → result = c)
    ∧ ((o = LlmContent None ∨ o = LlmContent (Some "")) →
       result = "Error: Empty response from LLM.")
    ∧ (∀ e, o = LlmRaise e → result = "Error calling OpenAI: " +:+ exc_str e)
    ∧ (startswith result "Error" = false → o = LlmContent (Some result)).
Proof.
  unfold invoke.
  set (req := {| cr_model := model; cr_system := _; cr_user := question |}).
  destruct (llm_complete req w) as [o w'] eqn:Hc.
  eexists _, req, o, w'. split; [reflexivity|]. split; [done|].
  split; [done|]. split; [done|].
  destruct o as [e|[[|ch c]|]]; cbn [str_or].
  - split; [done|]. split; [by intros c [=]|]. split; [by intros [[=]|[=]]|].
    split; [by intros e' [= ->] | done].
  - split; [done|]. split; [by intros c [= <-] |]. split; [done|].
    split; [by intros e [=] | done].
  - split; [done|]. split; [by intros c' [= <-]|]. split; [by intros [[=]|[=]]|].
    split; [by intros e [=] | done].
  - split; [done|]. split; [by intros c [=]|]. split; [done|].
    split; [by intros e [=] | done].
Qed.

Lemma invoke_always_answers_witness :
  (invoke "A baker" "gpt-4o-mini" "Who are you?"
          ((None, [LlmContent (Some "I bake bread.")]) : LlmScript)).1.1
  = "I bake bread."
  ∧ (invoke "A baker" "gpt-4o-mini" "Who are you?"
            ((None, [LlmContent (Some "")]) : LlmScript)).1.1
    = "Error: Empty response from LLM."
  ∧ (invoke "A baker" "gpt-4o-mini" "Who are you?"
            ((None, [LlmRaise {| exc_str := "Rate limit"; exc_traceback := "" |}])
             : LlmScript)).1.1
    = "Error calling OpenAI: Rate limit".
Proof.
  split; [|split].
  - destruct (@invoke_always_answers LlmScript scripted_llm
                "A baker" "gpt-4o-mini" "Who are you?"
                (None, [LlmContent (Some "I bake bread.")]))
      as (result & req & o & w' & Hrun & Hc & _ & _ & _ & Hcontent & _).
    rewrite Hrun. injection Hc as <- _. by apply Hcontent.
  - destruct (@invoke_always_answers LlmScript scripted_llm
                "A baker" "gpt-4o-mini" "Who are you?"
                (None, [LlmContent (Some "")]))
      as (result & req & o & w' & Hrun & Hc & _ & _ & _ & _ & Hempty & _).
    rewrite Hrun. injection Hc as <- _. apply Hempty. by right.
  - destruct (@invoke_always_answers LlmScript scripted_llm
                "A baker" "gpt-4o-mini" "Who are you?"
                (None, [LlmRaise {| exc_str := "Rate limit"; exc_traceback := "" |}]))
      as (result & req & o & w' & Hrun & Hc & _ & _ & _ & _ & _ & Hraise & _).
    rewrite Hrun. injection Hc as <- _. exact (Hraise _ eq_refl).
Defined.

(** X12: whatever the language model service does,
    [WhiteAgentExecutor.execute] enqueues exactly one message, as its
    last step, and its text is not empty.  For an
    empty question it does nothing else: no client is made and the model
    is not called.  The message carries the context id of the request
    only when the answer comes from [invoke]; the two error messages of
    [execute] itself carry none. *)
Theorem execute_enqueues_one_message `{Llm W}
    (persona model : string) (context : RequestContext) (w : W) :
  ∃ text ctx evs w',
    execute persona model context w = (evs ++ [AeEnqueue text ctx], w')
    ∧ List.filter is_enqueue evs = []
    ∧ text ≠ ""
    ∧ (user_input context = "" →
       evs = [] ∧ w' = w ∧ ctx = None
       ∧ text = "Error: No question text was provided in the request.")
    ∧ (user_input context ≠ "" → head evs = Some (AeClient (llm_client w).1))
    ∧ (∀ e, AeClient (Some e) ∈ evs → ctx = None ∧ evs = [AeClient (Some e)])
    ∧ (AeClient None ∈ evs →
       ctx = rc_context_id context
       ∧ ∃ req o, evs = [AeClient None; AeComplete req o]
                  ∧ cr_user req = user_input context).
Proof.
  unfold execute. destruct (user_input context) as [|ch q] eqn:Hq.
  - eexists _, _, [], w. split; [reflexivity|]. split; [done|]. split; [done|].
    split; [done|]. split; [done|].
    split; [by intros e ?%elem_of_nil | by intros ?%elem_of_nil].
  - destruct (llm_client w) as [[e|] w1] eqn:Hcl.
    + eexists _, _, [_], w1. split; [reflexivity|]. split; [done|].
      split; [done|]. split; [done|]. split; [done|]. split.
      * by intros e' [= ->]%list_elem_of_singleton.
      * by intros [=]%list_elem_of_singleton.
    + destruct (invoke_shape persona model (String ch q) w1)
        as (result & req & o & w' & Hrun & Hu & Hne & _).
      rewrite Hrun. eexists result, _, [_; _], w'.
      split; [reflexivity|]. split; [done|]. split; [done|].
      split; [done|]. split; [done|]. split.
      * intros e Hin. apply elem_of_cons in Hin as [[=]|Hin].
        by apply list_elem_of_singleton in Hin.
      * intros _. split; [done|]. by exists req, o.
Qed.

Lemma execute_enqueues_one_message_witness :
  (∃ w', execute "A baker" "gpt-4o-mini"
                 {| user_input := ""; rc_context_id := Some "c1" |}
                 ((None, [LlmContent (Some "I bake bread.")]) : LlmScript)
         = ([AeEnqueue "Error: No question text was provided in the request." None], w'))
  ∧ (∃ text evs w',
       execute "A baker" "gpt-4o-mini"
               {| user_input := "Who are you?"; rc_context_id := Some "c1" |}
               ((None, [LlmContent (Some "I bake bread.")]) : LlmScript)
       = (evs ++ [AeEnqueue text (Some "c1")], w')
       ∧ head evs = Some (AeClient None)).
Proof.
  split.
  - destruct (@execute_enqueues_one_message LlmScript scripted_llm
                "A baker" "gpt-4o-mini"
                {| user_input := ""; rc_context_id := Some "c1" |}
                (None, [LlmContent (Some "I bake bread.")]))
      as (text & ctx & evs & w' & Hrun & _ & _ & Hempty & _).
    destruct (Hempty eq_refl) as (-> & _ & -> & ->). by exists w'.
  - destruct (@execute_enqueues_one_message LlmScript scripted_llm
                "A baker" "gpt-4o-mini"
                {| user_input := "Who are you?"; rc_context_id := Some "c1" |}
                (None, [LlmContent (Some "I bake bread.")]))
      as (text & ctx & evs & w' & Hrun & _ & _ & _ & Hhead & _ & Hctx).
    specialize (Hhead ltac:(discriminate)). cbn in Hhead.
    assert (Hin : AeClient None ∈ evs).
    { destruct evs as [|ev evs]; [discriminate|]. injection Hhead as ->. by left. }
    destruct (Hctx Hin) as [-> _]. by exists text, evs, w'.
Defined.

(** ** How the evaluator scores what the white agent says *)

(** X13: the evaluator's score of the text that [execute] enqueues: the
    reply to an empty question, the reply after a completion call that
    raised and the reply to an empty completion all score 0.0, because
    they begin with "Error"; the report of a crash ("WHITE AGENT
    CRASHED: ...") does not, and scores between 1.0 and 5.0 like an
    answer. *)
Theorem evaluator_scores_of_agent_replies `{Llm W}
    (persona model : string) (context : RequestContext) (w : W) :
  ∃ text ctx evs w',
    execute persona model context w = (evs ++ [AeEnqueue text ctx], w')
    ∧ (user_input context = "" → turn_score text = float_of_int 0)
    ∧ (∀ req e, AeComplete req (LlmRaise e) ∈ evs → turn_score text = float_of_int 0)
    ∧ (∀ req, (AeComplete req (LlmContent None) ∈ evs
               ∨ AeComplete req (LlmContent (Some "")) ∈ evs) →
         turn_score text = float_of_int 0)
    ∧ (∀ req c, AeComplete req (LlmContent (Some c)) ∈ evs → c ≠ "" →
         turn_score text = turn_score c)
    ∧ (∀ e, AeClient (Some e) ∈ evs →
         startswith text "Error" = false
         ∧ SFleb (float_of_int 1) (turn_score text) = true
         ∧ SFleb (turn_score text) (float_of_int 5) = true).
Proof.
  unfold execute. destruct (user_input context) as [|ch q] eqn:Hq.
  - eexists _, _, [], w. split; [reflexivity|]. split; [done|].
    split; [by intros req e ?%elem_of_nil|].
    split; [by intros req [?%elem_of_nil|?%elem_of_nil]|].
    split; [by intros req c ?%elem_of_nil | by intros e ?%elem_of_nil].
  - destruct (llm_client w) as [[e|] w1] eqn:Hcl.
    + eexists _, _, [_], w1. split; [reflexivity|]. split; [done|].
      split; [by intros req e' [=]%list_elem_of_singleton|].
      split; [by intros req [[=]%list_elem_of_singleton|[=]%list_elem_of_singleton]|].
      split; [by intros req c [=]%list_elem_of_singleton|].
      intros e' _. split; [reflexivity|]. by apply turn_score_cases.
    + destruct (invoke_shape persona model (String ch q) w1)
        as (result & req & o & w' & Hrun & _ & _ & Hres).
      rewrite Hrun. eexists result, _, [_; _], w'.
      split; [reflexivity|]. split; [done|].
      assert (Hin : ∀ req' o', AeComplete req' o' ∈ [AeClient None; AeComplete req o]
                               → o' = o).
      { intros req' o' Hin. apply elem_of_cons in Hin as [[=]|Hin].
        apply list_elem_of_singleton in Hin. by injection Hin as _ ->. }
      split; [|split; [|split]].
      * intros req' e Hc. apply Hin in Hc. subst. reflexivity.
      * intros req' [Hc|Hc]; apply Hin in Hc; subst; reflexivity.
      * intros req' c Hc Hne. apply Hin in Hc. subst. by destruct c.
      * intros e He. apply elem_of_cons in He as [[=]|He].
        by apply list_elem_of_singleton in He.
Qed.

Lemma evaluator_scores_of_agent_replies_witness :
  ∃ text ctx evs w',
    execute "A baker" "gpt-4o-mini"
            {| user_input := "Who are you?"; rc_context_id := Some "c1" |}
            ((Some {| exc_str := "The api_key client option must be set";
                      exc_traceback := "Traceback (most recent call last)" |}, [])
             : LlmScript)
    = (evs ++ [AeEnqueue text ctx], w')
    ∧ startswith text "Error" = false
    ∧ SFleb (float_of_int 1) (turn_score text) = true.
Proof.
  destruct (@evaluator_scores_of_agent_replies LlmScript scripted_llm
              "A baker" "gpt-4o-mini"
              {| user_input := "Who are you?"; rc_context_id := Some "c1" |}
              (Some {| exc_str := "The api_key client option must be set";
                       exc_traceback := "Traceback (most recent call last)" |}, []))
    as (text & ctx & evs & w' & Hrun & _ & _ & _ & _ & Hcrash).
  exists text, ctx, evs, w'. split; [exact Hrun|].
  assert (Hevs : removelast
            (execute "A baker" "gpt-4o-mini"
               {| user_input := "Who are you?"; rc_context_id := Some "c1" |}
               ((Some {| exc_str := "The api_key client option must be set";
                         exc_traceback := "Traceback (most recent call last)" |}, [])
                : LlmScript)).1 = evs)
    by (rewrite Hrun; apply removelast_last).
  vm_compute in Hevs. subst evs.
  destruct (Hcrash _ ltac:(by left)) as (Hne & Hlow & _). by split.
Defined.

(** ** The description on the agent card *)

Lemma length_append (s t : string) :
  String.length (s +:+ t) = (String.length s + String.length t)%nat.
Proof.
  induction s as [|c s IH]; [done|].
  change (String c s +:+ t) with (String c (s +:+ t)).
  cbn [String.length]. by rewrite IH.
Qed.

Lemma length_slice_to (n : nat) (s : string) :
  String.length (slice_to n s) = (n `min` String.length s)%nat.
Proof.
  unfold slice_to. revert s. induction n as [|n IH]; intros [|c s]; cbn; try done.
  by rewrite IH.
Qed.

Lemma slice_to_all (n : nat) (s : string) :
  (String.length s ≤ n)%nat → slice_to n s = s.
Proof.
  unfold slice_to. revert s. induction n as [|n IH]; intros [|c s]; cbn; try done.
  - lia.
  - intros Hl. rewrite IH; [done | lia].
Qed.

Lemma slice_to_prefix (n : nat) (s : string) :
  ∃ rest, s = slice_to n s +:+ rest.
Proof.
  unfold slice_to. revert s. induction n as [|n IH]; intros [|c s]; cbn.
  - by exists "".
  - by exists (String c s).
  - by exists "".
  - destruct (IH s) as [rest Hrest]. exists rest.
    change (String c s = String c (substring 0 n s +:+ rest)). by f_equal.
Qed.

(** X16: the description on the white agent's card shows the persona up
    to its first 100 characters: the whole persona when it has at most
    100 characters, a proper beginning of it otherwise; the description
    has 27 characters more than what it shows of the persona, at most
    127. *)
Theorem agent_card_description_truncates_persona (url persona : string) :
  ∃ shown rest,
    card_description (prepare_agent_card url persona)
    = "PersonaGym white agent: " +:+ shown +:+ "..."
    ∧ persona = shown +:+ rest
    ∧ String.length shown = (100 `min` String.length persona)%nat
    ∧ ((String.length persona ≤ 100)%nat ↔ shown = persona)
    ∧ String.length (card_description (prepare_agent_card url persona))
      = (27 + 100 `min` String.length persona)%nat
    ∧ (String.length (card_description (prepare_agent_card url persona)) ≤ 127)%nat.
Proof.
  destruct (slice_to_prefix 100 persona) as [rest Hrest].
  exists (slice_to 100 persona), rest. split; [reflexivity|]. split; [exact Hrest|].
  pose proof (length_slice_to 100 persona) as Hlen. split; [exact Hlen|].
  assert (Hd : String.length (card_description (prepare_agent_card url persona))
               = (27 + 100 `min` String.length persona)%nat).
  { cbn [card_description prepare_agent_card].
    rewrite !length_append, Hlen. cbn. lia. }
  split; [|split; [exact Hd | lia]]. split.
  - apply slice_to_all.
  - intros Heq. rewrite Heq in Hlen. lia.
Qed.

Lemma agent_card_description_truncates_persona_witness :
  card_description (prepare_agent_card "http://white:8001/" "A baker")
  = "PersonaGym white agent: A baker..."
  ∧ String.length (card_description (prepare_agent_card "http://white:8001/" (letters 300)))
    = 127%nat.
Proof.
  split.
  - destruct (agent_card_description_truncates_persona "http://white:8001/" "A baker")
      as (shown & rest & Hd & _ & _ & Hall & _).
    rewrite Hd. rewrite (proj1 Hall); [reflexivity | cbn; lia].
  - destruct (agent_card_description_truncates_persona "http://white:8001/" (letters 300))
      as (shown & rest & _ & _ & _ & _ & Hlen & _).
    rewrite Hlen. reflexivity.
Defined.

(** * What a run puts on the network *)




